(** * electron-builder: the platform packager

    A shallow embedding of
    [packages/electron-builder-lib/src/platformPackager.ts]:
    the packaging pipeline [doPack], the main file copy [copyAppFiles],
    the scheduling of target builds [packageInDistributableFormat], the
    archive options [computeAsarOptions], the package sanity check and the
    artifact naming functions, with the properties the specification states
    about them.

    Layout: JavaScript values and strings, the [path] interface, the data
    model, the collaborators the class calls, the effect monad of the
    pipeline, the methods of [PlatformPackager] in source order, models of
    the collaborators used to run the code on concrete inputs, and then the
    theorems. *)

From Stdlib Require Import String Ascii List Bool Arith Lia.
From stdpp Require Import base option list gmap strings.
Import ListNotations.
Open Scope string_scope.
Open Scope list_scope.

Set Default Proof Using "Type".

(** ** JavaScript values *)

(** A value of TypeScript type [T | null | undefined]. *)
Inductive nullable (A : Type) : Type :=
| Undefined
| Null
| Val (a : A).
Arguments Undefined {A}.
Arguments Null {A}.
Arguments Val {A} a.

(** [v == null] and [v != null]: true of [null] and of [undefined]. *)
Definition eq_null {A} (v : nullable A) : bool :=
  match v with Val _ => false | _ => true end.

Definition ne_null {A} (v : nullable A) : bool := negb (eq_null v).

(** [v === null]. *)
Definition is_null {A} (v : nullable A) : bool :=
  match v with Null => true | _ => false end.

(** [v || d] for a value whose non-null inhabitants are told truthy from
    falsy by [truthy]. *)
Definition js_or {A} (truthy : A -> bool) (v : nullable A) (d : A) : A :=
  match v with
  | Val a => if truthy a then a else d
  | _ => d
  end.

(** A non-empty string is truthy, the empty string is falsy. *)
Definition truthy_string (s : string) : bool :=
  match s with EmptyString => false | String _ _ => true end.

(** The non-null scalar values an options object holds under a key. *)
Inductive JsVal : Type :=
| JBool (b : bool)
| JNum (n : nat)
| JStr (s : string).

(** A plain JavaScript object used as a map from keys to values. *)
Abbreviation JsObject := (gmap string (nullable JsVal)).

(** [obj[key]]: a key that is absent reads as [undefined]. *)
Definition js_get (obj : JsObject) (key : string) : nullable JsVal :=
  default Undefined (obj !! key).

(** Results of code that can throw. *)
Inductive Error : Type :=
| DeprecatedOption (name : string)
| OutputDirMissing (appOutDir : string)
| OutputDirNotDirectory (appOutDir : string)
| FileMissing (messagePrefix relativeFile : string)
| FileNotFile (messagePrefix relativeFile : string)
| UnknownMacro (name : string)
| Thrown (what : string).

Inductive Result (A : Type) : Type :=
| Ok (a : A)
| Err (e : Error).
Arguments Ok {A} a.
Arguments Err {A} e.

(** ** Strings *)

(** [s.split(sep)] for a one-character separator. *)
Fixpoint split (sep : ascii) (s : string) : list string :=
  match s with
  | EmptyString => [EmptyString]
  | String c s' =>
      if Ascii.eqb c sep then EmptyString :: split sep s'
      else match split sep s' with
           | h :: t => String c h :: t
           | [] => [String c EmptyString]
           end
  end.

(** [s.startsWith(p)]. *)
Definition startsWith (s p : string) : bool := String.prefix p s.

(** [s.endsWith(p)]. *)
Definition endsWith (s p : string) : bool :=
  String.prefix (String.rev p) (String.rev s).

(** [s.includes(p)]. *)
Fixpoint includes (s p : string) : bool :=
  match s with
  | EmptyString => String.prefix p EmptyString
  | String _ s' => String.prefix p s || includes s' p
  end.

(** [parts.join(sep)]. *)
Definition join_with (sep : string) (parts : list string) : string :=
  String.concat sep parts.

(** ** The [path] module

    The class reaches the file system through Node's [path]; the functions
    it calls form this interface. *)

Record ParsedPath : Type := { dir : string; base : string }.

Class PathApi : Type := {
  path_sep : ascii;
  path_join : list string -> string;
  path_resolve : list string -> string;
  path_relative : string -> string -> string;
  path_parse : string -> ParsedPath
}.

(** ** Data model

    The class imports its types from other modules of the repository
    ([./index], [./appInfo], [./fileMatcher], builder-util).  Each is given
    here with the members and the fields the class uses. *)

(** Modelled from the spec: the enum [Arch] of builder-util, which is not
    part of the sources at hand.  The class names the members [ia32], the
    32-bit architecture, and [x64], the 64-bit one; [armv7l] and [arm64]
    stand for the members it does not name.  [Arch_name] is the reverse
    mapping [Arch[arch]]. *)
Inductive Arch : Type := ia32 | x64 | armv7l | arm64.

Definition Arch_name (arch : Arch) : string :=
  match arch with
  | ia32 => "ia32"
  | x64 => "x64"
  | armv7l => "armv7l"
  | arm64 => "arm64"
  end.

Definition Arch_eqb (a b : Arch) : bool :=
  match a, b with
  | ia32, ia32 | x64, x64 | armv7l, armv7l | arm64, arm64 => true
  | _, _ => false
  end.

(** [arch === a] for an [arch] that may be null or undefined. *)
Definition arch_is (arch : nullable Arch) (a : Arch) : bool :=
  match arch with Val b => Arch_eqb b a | _ => false end.

(** Modelled from the spec: [Platform] of [./index], which is not part of
    the sources at hand, with the platform identifier
    [buildConfigurationKey] the class reads. *)
Inductive Platform : Type := MAC | LINUX | WINDOWS.

Definition buildConfigurationKey (platform : Platform) : string :=
  match platform with MAC => "mac" | LINUX => "linux" | WINDOWS => "win" end.

Definition is_MAC (platform : Platform) : bool :=
  match platform with MAC => true | _ => false end.

(** Modelled from the spec: the type [CompressionLevel] of [./index], which
    is not part of the sources at hand; the class names ["normal"]. *)
Inductive CompressionLevel : Type := store | normal | maximum.

(** The [asar] option: [AsarOptions | boolean]. *)
Inductive AsarValue : Type :=
| AsarBool (b : bool)
| AsarObject (o : JsObject).

(** The fields of [Configuration] the class reads; [asar_unpack] and
    [asar_unpack_dir] are the keys ["asar-unpack"] and ["asar-unpack-dir"],
    read through [this.config as any]. *)
Module Configuration.
Record t : Type := {
  compression : nullable CompressionLevel;
  asar : nullable AsarValue;
  asar_unpack : nullable JsVal;
  asar_unpack_dir : nullable JsVal;
  artifactName : nullable string;
  extraMetadata : nullable JsObject;
  extraResources : nullable (list string);
  extraFiles : nullable (list string);
  asarUnpack : nullable (list string)
}.
End Configuration.

Module PlatformSpecificBuildOptions.
Record t : Type := {
  compression : nullable CompressionLevel;
  asar : nullable AsarValue;
  artifactName : nullable string
}.
End PlatformSpecificBuildOptions.

Module TargetSpecificOptions.
Record t : Type := { artifactName : nullable string }.
End TargetSpecificOptions.

Record AppInfo : Type := {
  productName : string;
  productFilename : string;
  name : string;
  version : string
}.

(** A content transformer: [null] (here [None]) means that the file is
    copied as it is. *)
Definition FileTransformer : Type := string -> option string.

(** The framework; [isElectronBased] is the answer of the function of that
    name, [beforeCopyExtraFiles] tells whether the hook is defined, and
    [createTransformer] is [None] when the framework has no such method. *)
Module Framework.
Record t : Type := {
  name : string;
  version : string;
  distMacOsAppName : string;
  isElectronBased : bool;
  beforeCopyExtraFiles : bool;
  createTransformer : option FileTransformer
}.
End Framework.

(** A target: its build is an effect, scheduled by
    [packageInDistributableFormat]. *)
Module Target.
Record t : Type := { name : string; isAsyncSupported : bool }.
End Target.

(** A compiled glob pattern. *)
Record Minimatch : Type := { pattern : string }.

(** A [FileMatcher] as the class sees it: the constructor arguments, the
    patterns, and the field [excludePatterns] it assigns. *)
Module FileMatcher.
Record t : Type := {
  from : string;
  to : string;
  patterns : list string;
  excludePatterns : nullable (list Minimatch)
}.
End FileMatcher.

(** [new FileMatcher(from, to, macroExpander)]. *)
Definition new_FileMatcher (from to : string) : FileMatcher.t :=
  {| FileMatcher.from := from; FileMatcher.to := to;
     FileMatcher.patterns := []; FileMatcher.excludePatterns := Null |}.

(** [matcher.excludePatterns = excludePatterns]. *)
Definition set_excludePatterns (excludePatterns : list Minimatch)
    (matcher : FileMatcher.t) : FileMatcher.t :=
  {| FileMatcher.from := FileMatcher.from matcher;
     FileMatcher.to := FileMatcher.to matcher;
     FileMatcher.patterns := FileMatcher.patterns matcher;
     FileMatcher.excludePatterns := Val excludePatterns |}.

Record GetFileMatchersOptions : Type := {
  macroExpander : string -> Result string;
  customBuildOptions : PlatformSpecificBuildOptions.t;
  outDir : string
}.

(** [this.info], the [Packager]. *)
Module Packager.
Record t : Type := {
  prepackaged : nullable string;
  appDir : string;
  projectDir : string;
  config : Configuration.t;
  metadata_main : nullable string;
  framework : Framework.t;
  isPrepackedAppAsar : bool;
  areNodeModulesHandledExternally : bool;
  isElectronCompileUsed : bool
}.
End Packager.

Record AfterPackContext : Type := {
  ctx_appOutDir : string;
  ctx_outDir : string;
  ctx_arch : Arch;
  ctx_targets : list Target.t;
  ctx_electronPlatformName : string
}.

(** An instance of [PlatformPackager]: its fields and the protected method
    a subclass overrides, [createTransformerForExtraFiles] (the base class
    returns [null]). *)
Record PlatformPackager : Type := {
  info : Packager.t;
  platform : Platform;
  platformSpecificBuildOptions : PlatformSpecificBuildOptions.t;
  appInfo : AppInfo;
  createTransformerForExtraFiles : AfterPackContext -> option FileTransformer
}.

Definition config (p : PlatformPackager) : Configuration.t :=
  Packager.config (info p).

Definition projectDir (p : PlatformPackager) : string :=
  Packager.projectDir (info p).

(** The metadata [copyAppFiles] hands to [createTransformer]. *)
Inductive TransformerMetadata : Type :=
| ElectronCompileMetadata (originalMain : nullable string) (main : string)
    (extraMetadata : nullable JsObject)
| PlainMetadata (extraMetadata : nullable JsObject).

(** ** Collaborators

    Functions of the repository the class imports from other modules
    ([./fileMatcher], [./fileTransformer], [./util/macroExpander]) and from
    builder-util.  [computeParsedPatterns matcher fromDir] is the list of
    patterns the method of that name pushes onto its first argument. *)
Class Collaborators : Type := {
  getFileMatchers : Configuration.t -> string -> string -> string ->
    GetFileMatchersOptions -> option (list FileMatcher.t);
  getMainFileMatchers : string -> string -> (string -> Result string) ->
    PlatformSpecificBuildOptions.t -> PlatformPackager -> string -> bool ->
    list FileMatcher.t;
  getNodeModuleFileMatcher : string -> string -> (string -> Result string) ->
    PlatformSpecificBuildOptions.t -> Packager.t -> FileMatcher.t;
  computeParsedPatterns : FileMatcher.t -> string -> list Minimatch;
  createTransformer : string -> Configuration.t -> TransformerMetadata ->
    option FileTransformer -> FileTransformer;
  doExpandMacro : string -> nullable string -> AppInfo -> gmap string string ->
    bool -> Result string;
  deepAssign : JsObject -> JsObject -> JsObject;
  ELECTRON_COMPILE_SHIM_FILENAME : string
}.

(** [Stats] as [statOrNull] returns it. *)
Record Stats : Type := { isFile : bool; isDirectory : bool }.

(** ** Effects

    [doPack] awaits its collaborators one after the other.  While a call is
    awaited the driver of the build may set the cancellation token, and the
    call may throw.  [Step] names the awaited calls, and the three
    computations [doPack] makes in between that are not awaited and may
    throw as well: the extra-resource matchers, the extra-file matchers
    (an unknown macro in a pattern is an error) and the part of
    [copyAppFiles] that runs before its task is added, which computes the
    main matchers and the transformer. *)
Inductive Step : Type :=
| SPrepareStage
| SExtraResourceMatchers
| SExtraFileMatchers
| SComputeAsarOptions
| SCopyAppFiles
| SMainCopy
| SComputeData
| SBeforeCopyExtraFiles
| SCopyExtraResources
| SCopyExtraFiles
| SAfterPack
| SSanityCheck
| SSignApp
| SAfterSign.

(** The surroundings of one run: the file system as [statOrNull] and
    [checkFileInArchive] read it, and for every awaited call whether it
    throws ([throws]) and whether the token is set while it is awaited
    ([cancels]).  The outcome of [SComputeAsarOptions] and of
    [SSanityCheck] is computed by the class itself: for these two only
    [cancels] is read.  [SExtraResourceMatchers], [SExtraFileMatchers] and
    [SCopyAppFiles] are not awaited: for these three only [throws] is
    read. *)
Record Env : Type := {
  statOrNull : string -> option Stats;
  checkFileInArchive : string -> string -> string -> Result unit;
  throws : Step -> option Error;
  cancels : Step -> bool
}.

(** What [_computeFileSets] is asked to compute: the matchers, the
    transformer handed to [computeFileSets], and the matcher of the second
    pass over the node modules, when there is one. *)
Record FileSetsPlan : Type := {
  plan_matchers : list FileMatcher.t;
  plan_transformer : option FileTransformer;
  plan_isElectronCompile : bool;
  plan_nodeModules : option FileMatcher.t
}.

(** The task [copyAppFiles] adds to the task manager: every file set is
    copied with a transformer, or all file sets are transformed and packed
    into an archive. *)
Inductive MainCopyTask : Type :=
| CopyEach (fileSets : FileSetsPlan) (transformer : FileTransformer)
| PackAsar (fileSets : FileSetsPlan) (transformer : FileTransformer)
    (asarOptions : JsObject) (unpackMatcher : option FileMatcher.t).

(** What a run does, in order. *)
Inductive Event : Type :=
| EvLogInfo (message : string)
| EvLogWarn (message : string)
| EvPrepareStage (appOutDir platformName arch version : string)
| EvMainCopy (task : MainCopyTask)
| EvReadCancelled (value : bool)
| EvComputeData (resourcesPath : string) (externalAllowed : bool)
| EvBeforeCopyExtraFiles (appOutDir : string) (withIntegrity : bool)
| EvCopyFiles (matchers : option (list FileMatcher.t))
    (transformer : option FileTransformer)
| EvAfterPack (packContext : AfterPackContext)
| EvSanityCheck (appOutDir : string) (isAsar : bool)
| EvSignApp (packContext : AfterPackContext) (isAsar : bool)
| EvAfterSign (packContext : AfterPackContext).

(** The state a run threads: the cancellation token and the calls made so
    far. *)
Record World : Type := { cancelled : bool; trace : list Event }.

(** Code that reads and writes the world and may throw.  The world is kept
    when the code throws, so that the calls made before are still seen. *)
Definition M (A : Type) : Type := World -> Result A * World.

Definition ret {A} (a : A) : M A := fun w => (Ok a, w).

Definition bind {A B} (c : M A) (f : A -> M B) : M B := fun w =>
  match c w with
  | (Ok a, w') => f a w'
  | (Err e, w') => (Err e, w')
  end.

Declare Scope pipeline_scope.
Delimit Scope pipeline_scope with pipeline.
Notation "x <- c ;; k" := (bind c (fun x => k))
  (at level 100, c at next level, right associativity) : pipeline_scope.
Notation "c ;; k" := (bind c (fun _ => k))
  (at level 100, right associativity) : pipeline_scope.
Open Scope pipeline_scope.

Definition throw {A} (e : Error) : M A := fun w => (Err e, w).

Definition lift {A} (r : Result A) : M A := fun w => (r, w).

Definition emit (ev : Event) : M unit := fun w =>
  (Ok tt, {| cancelled := cancelled w; trace := trace w ++ [ev] |}).

(** Awaiting: the token may be set meanwhile; it is never reset. *)
Definition suspend (env : Env) (s : Step) : M unit := fun w =>
  (Ok tt, {| cancelled := cancelled w || cancels env s; trace := trace w |}).

(** [await] of a collaborator's call. *)
Definition await (env : Env) (s : Step) (ev : Event) : M unit :=
  emit ev ;;
  suspend env s ;;
  match throws env s with
  | Some e => throw e
  | None => ret tt
  end.

(** A call that is not awaited: it throws, or it returns [value]. *)
Definition call {A} (env : Env) (s : Step) (value : A) : M A :=
  match throws env s with
  | Some e => throw e
  | None => ret value
  end.

(** [this.info.cancellationToken.cancelled]. *)
Definition readCancelled : M bool := fun w =>
  (Ok (cancelled w),
   {| cancelled := cancelled w; trace := trace w ++ [EvReadCancelled (cancelled w)] |}).

(** [for (const x of xs) { body(x) }]. *)
Fixpoint for_of {A} (xs : list A) (body : A -> M unit) : M unit :=
  match xs with
  | [] => ret tt
  | x :: xs' => body x ;; for_of xs' body
  end.

(** The operations [packageInDistributableFormat] performs: on the
    caller's task manager, and inside the function it adds, on the task
    manager created there with the token of the build,
    [this.info.cancellationToken].  [AddTask] calls the target's [build]
    and registers the promise, [AwaitBuild] calls [build] and awaits it. *)
Inductive TaskManager : Type := CallerTaskManager | SubTaskManager.

Inductive Token : Type := cancellationToken.

#[warnings="-register-all"]
Inductive TaskOp : Type :=
| AddTask (taskManager : TaskManager) (target : Target.t)
| Add (taskManager : TaskManager) (body : list TaskOp)
| NewTaskManager (token : Token)
| AwaitTasks (taskManager : TaskManager)
| AwaitBuild (target : Target.t).

(** ** The class [PlatformPackager] *)

Section Methods.

Context {path : PathApi} {collaborators : Collaborators}.

(** [get compression()].  Every compression level is a non-empty string,
    so that [||] falls through on [null] and [undefined] only. *)
Definition compression (p : PlatformPackager) : CompressionLevel :=
  let compression :=
    PlatformSpecificBuildOptions.compression (platformSpecificBuildOptions p) in
  if is_null compression then normal
  else js_or (fun _ => true) compression
         (js_or (fun _ => true) (Configuration.compression (config p)) normal).

(** [buildAsyncTargets]: the loop over the targets. *)
Fixpoint buildAsyncTargets (targets : list Target.t) (taskManager : TaskManager)
    : list TaskOp :=
  match targets with
  | [] => []
  | target :: rest =>
      if Target.isAsyncSupported target
      then AddTask taskManager target :: buildAsyncTargets rest taskManager
      else buildAsyncTargets rest taskManager
  end.

(** The second loop of [packageInDistributableFormat]. *)
Fixpoint buildSyncTargets (targets : list Target.t) : list TaskOp :=
  match targets with
  | [] => []
  | target :: rest =>
      if negb (Target.isAsyncSupported target)
      then AwaitBuild target :: buildSyncTargets rest
      else buildSyncTargets rest
  end.

Definition packageInDistributableFormat (targets : list Target.t) : list TaskOp :=
  match List.find (fun it => negb (Target.isAsyncSupported it)) targets with
  | None => buildAsyncTargets targets CallerTaskManager
  | Some _ =>
      [Add CallerTaskManager
         (NewTaskManager cancellationToken
          :: buildAsyncTargets targets SubTaskManager
          ++ [AwaitTasks SubTaskManager]
          ++ buildSyncTargets targets)]
  end.

Definition isElectronBased (p : PlatformPackager) : bool :=
  Framework.isElectronBased (Packager.framework (info p)).

Definition getMacOsResourcesDir (p : PlatformPackager) (appOutDir : string) : string :=
  path_join [appOutDir; productFilename (appInfo p) +:+ ".app"; "Contents"; "Resources"].

Definition getResourcesDir (p : PlatformPackager) (appOutDir : string) : string :=
  if is_MAC (platform p) then getMacOsResourcesDir p appOutDir
  else if isElectronBased p then path_join [appOutDir; "resources"]
  else appOutDir.

Definition getExtraFileMatchers (p : PlatformPackager) (isResources : bool)
    (appOutDir : string) (options : GetFileMatchersOptions)
    : option (list FileMatcher.t) :=
  let base :=
    if isResources then getResourcesDir p appOutDir
    else if is_MAC (platform p)
         then path_join [appOutDir; productFilename (appInfo p) +:+ ".app"; "Contents"]
         else appOutDir in
  getFileMatchers (config p) (if isResources then "extraResources" else "extraFiles")
    (projectDir p) base options.

(** [expandMacro]: [{os: ..., ...extra}] lets a key of [extra] win. *)
Definition expandMacro (p : PlatformPackager) (pattern : string)
    (arch : nullable string) (extra : gmap string string)
    (isProductNameSanitized : bool) : Result string :=
  doExpandMacro pattern arch (appInfo p)
    (extra ∪ {[ "os" := buildConfigurationKey (platform p) ]})
    isProductNameSanitized.

Definition computeArtifactName (p : PlatformPackager) (pattern ext : string)
    (arch : nullable Arch) : Result string :=
  let archName : nullable string :=
    match arch with Val a => Val (Arch_name a) | _ => Null end in
  let archName :=
    if arch_is arch x64 then
      if String.eqb ext "AppImage" || String.eqb ext "rpm" then Val "x86_64"
      else if String.eqb ext "deb" || String.eqb ext "snap" then Val "amd64"
      else archName
    else if arch_is arch ia32 then
      if String.eqb ext "deb" || String.eqb ext "AppImage" || String.eqb ext "snap"
      then Val "i386"
      else if String.eqb ext "pacman" || String.eqb ext "rpm" then Val "i686"
      else archName
    else archName in
  expandMacro p pattern (if is_MAC (platform p) then Null else archName)
    {[ "ext" := ext ]} true.

(** The character class of [isSafeGithubName]: [[0-9A-Za-z._-]]. *)
Definition safe_char (c : ascii) : bool :=
  let n := nat_of_ascii c in
  ((48 <=? n)%nat && (n <=? 57)%nat) || ((65 <=? n)%nat && (n <=? 90)%nat)
  || ((97 <=? n)%nat && (n <=? 122)%nat)
  || Ascii.eqb c "."%char || Ascii.eqb c "_"%char || Ascii.eqb c "-"%char.

(** [/^[0-9A-Za-z._-]+$/.test(name)]: one character or more, all of the
    class. *)
Definition isSafeGithubName (name : string) : bool :=
  match name with
  | EmptyString => false
  | String _ _ => forallb safe_char (list_ascii_of_string name)
  end.

(** The default values of the optional parameters of
    [computeSafeArtifactName] and [expandArtifactNamePattern]. *)
Definition default_skipArchIfX64 : bool := true.
Definition default_safePattern : string := "${name}-${version}-${arch}.${ext}".
Definition default_artifactNamePattern : string :=
  "${productName}-${version}-${arch}.${ext}".

Definition computeSafeArtifactName (p : PlatformPackager)
    (suggestedName : nullable string) (ext : string) (arch : nullable Arch)
    (skipArchIfX64 : bool) (safePattern : string) : Result (nullable string) :=
  if match suggestedName with
     | Val suggested => isSafeGithubName suggested
     | _ => false
     end
  then Ok Null
  else
    match computeArtifactName p safePattern ext
            (if skipArchIfX64 && arch_is arch x64 then Null else arch) with
    | Ok artifactName => Ok (Val artifactName)
    | Err e => Err e
    end.

Definition expandArtifactNamePattern (p : PlatformPackager)
    (targetSpecificOptions : nullable TargetSpecificOptions.t) (ext : string)
    (arch : nullable Arch) (defaultPattern : nullable string)
    (skipArchIfX64 : bool) : Result string :=
  let pattern :=
    match targetSpecificOptions with
    | Val options => TargetSpecificOptions.artifactName options
    | _ => Null
    end in
  let pattern :=
    match pattern with
    | Val pattern => pattern
    | _ =>
        js_or truthy_string
          (PlatformSpecificBuildOptions.artifactName (platformSpecificBuildOptions p))
          (js_or truthy_string (Configuration.artifactName (config p))
             (js_or truthy_string defaultPattern default_artifactNamePattern))
    end in
  computeArtifactName p pattern ext
    (if skipArchIfX64 && arch_is arch x64 then Null else arch).

(** Truthiness of a property value. *)
Definition js_truthy (v : nullable JsVal) : bool :=
  match v with
  | Val (JBool b) => b
  | Val (JNum n) => negb (n =? 0)%nat
  | Val (JStr s) => truthy_string s
  | _ => false
  end.

(** [computeAsarOptions].  The error message is built from the name of the
    option, which [DeprecatedOption] keeps. *)
Definition computeAsarOptions (env : Env) (p : PlatformPackager)
    (customBuildOptions : PlatformSpecificBuildOptions.t) : M (option JsObject) :=
  if negb (isElectronBased p) then ret None
  else
    let buildMetadata := config p in
    if ne_null (Configuration.asar_unpack buildMetadata)
    then throw (DeprecatedOption "asar-unpack")
    else if ne_null (Configuration.asar_unpack_dir buildMetadata)
    then throw (DeprecatedOption "asar-unpack-dir")
    else
      let platformSpecific := PlatformSpecificBuildOptions.asar customBuildOptions in
      let result :=
        if eq_null platformSpecific then Configuration.asar (config p)
        else platformSpecific in
      match result with
      | Val (AsarBool false) =>
          suspend env SComputeAsarOptions ;;
          let appAsarStat :=
            statOrNull env (path_join [Packager.appDir (info p); "app.asar"]) in
          match appAsarStat with
              | Some stat =>
                  if negb (isFile stat)
                  then emit (EvLogWarn "asar using is disabled")
                  else ret tt
              | None => emit (EvLogWarn "asar using is disabled")
              end ;;
          ret None
      | Undefined | Null | Val (AsarBool true) => ret (Some ∅)
      | Val (AsarObject result) =>
          for_of ["unpackDir"; "unpack"] (fun name =>
                if ne_null (js_get result name)
                then throw (DeprecatedOption ("asar." +:+ name))
                else ret tt) ;;
          ret (Some (deepAssign ∅ result))
      end.

(** [pathSplit.some((pathPart, index) => { partWithAsarIndex = index;
    return pathPart.endsWith(".asar") })]: the index of the last part
    visited, the first one ending in [.asar] if there is one. *)
Fixpoint some_asar_index (pathSplit : list string) (index partWithAsarIndex : nat)
    : nat :=
  match pathSplit with
  | [] => partWithAsarIndex
  | pathPart :: rest =>
      if endsWith pathPart ".asar" then index
      else some_asar_index rest (S index) index
  end.

(** [checkFileInPackage].  In the branch of an entry file below an
    [.asar] directory the source computes the inner path with
    [path.join.apply(pathSplit.slice(...))], a call of [path.join] with the
    slice as [this] and no argument, and then appends to it with [+=]. *)
Definition checkFileInPackage (env : Env) (p : PlatformPackager)
    (resourcesDir file messagePrefix : string) (isAsar : bool) : Result unit :=
  let appDir := Packager.appDir (info p) in
  let relativeFile := path_relative appDir (path_resolve [appDir; file]) in
  if isAsar then
    checkFileInArchive env (path_join [resourcesDir; "app.asar"]) relativeFile
      messagePrefix
  else
    let pathParsed := path_parse file in
    if includes (dir pathParsed) ".asar" then
      let pathSplit := split path_sep (dir pathParsed) in
      let partWithAsarIndex := some_asar_index pathSplit 0 0 in
      let asarPath := path_join (take (partWithAsarIndex + 1) pathSplit) in
      let mainPath :=
        if (partWithAsarIndex + 1 <? length pathSplit)%nat then path_join []
        else "" in
      let mainPath := mainPath +:+ path_join [mainPath; base pathParsed] in
      checkFileInArchive env (path_join [resourcesDir; "app"; asarPath]) mainPath
        messagePrefix
    else
      match statOrNull env (path_join [resourcesDir; "app"; relativeFile]) with
      | None => Err (FileMissing messagePrefix relativeFile)
      | Some outStat =>
          if negb (isFile outStat) then Err (FileNotFile messagePrefix relativeFile)
          else Ok tt
      end.

(** [this.info.metadata.main || "index.js"]. *)
Definition entryFile (p : PlatformPackager) : string :=
  js_or truthy_string (Packager.metadata_main (info p)) "index.js".

Definition sanityCheckPackage (env : Env) (p : PlatformPackager)
    (appOutDir : string) (isAsar : bool) : Result unit :=
  match statOrNull env appOutDir with
  | None => Err (OutputDirMissing appOutDir)
  | Some outStat =>
      if negb (isDirectory outStat) then Err (OutputDirNotDirectory appOutDir)
      else
        let resourcesDir := getResourcesDir p appOutDir in
        match checkFileInPackage env p resourcesDir (entryFile p)
                "Application entry file" isAsar with
        | Err e => Err e
        | Ok _ =>
            checkFileInPackage env p resourcesDir "package.json" "Application" isAsar
        end
  end.

(** The transformer [copyAppFiles] builds when archiving is disabled. *)
Definition combinedTransformer (transformerForExtraFiles : option FileTransformer)
    (transformer : FileTransformer) : FileTransformer :=
  fun file =>
    match transformerForExtraFiles with
    | Some extra =>
        match extra file with
        | Some result => Some result
        | None => transformer file
        end
    | None => transformer file
    end.

(** [copyAppFiles]: the task it adds to the task manager. *)
Definition copyAppFiles (p : PlatformPackager) (asarOptions : option JsObject)
    (resourcePath defaultDestination : string) (packContext : AfterPackContext)
    (platformSpecificBuildOptions : PlatformSpecificBuildOptions.t)
    (excludePatterns : list Minimatch) (macroExpander : string -> Result string)
    : MainCopyTask :=
  let appDir := Packager.appDir (info p) in
  let config := config p in
  let isElectronCompile :=
    bool_decide (asarOptions <> None) && Packager.isElectronCompileUsed (info p) in
  let mainMatchers :=
    getMainFileMatchers appDir defaultDestination macroExpander
      platformSpecificBuildOptions p (ctx_outDir packContext) isElectronCompile in
  let mainMatchers :=
    if (0 <? length excludePatterns)%nat
    then map (set_excludePatterns excludePatterns) mainMatchers
    else mainMatchers in
  let framework := Packager.framework (info p) in
  let transformer :=
    createTransformer appDir config
      (if isElectronCompile
       then ElectronCompileMetadata (Packager.metadata_main (info p))
              ELECTRON_COMPILE_SHIM_FILENAME (Configuration.extraMetadata config)
       else PlainMetadata (Configuration.extraMetadata config))
      (Framework.createTransformer framework) in
  let _computeFileSets := fun matchers : list FileMatcher.t =>
    {| plan_matchers := matchers;
       plan_transformer :=
         if Packager.isPrepackedAppAsar (info p) then None else Some transformer;
       plan_isElectronCompile := isElectronCompile;
       plan_nodeModules :=
         if negb (Packager.isPrepackedAppAsar (info p))
            && negb (Packager.areNodeModulesHandledExternally (info p))
         then Some (getNodeModuleFileMatcher appDir defaultDestination
                      macroExpander platformSpecificBuildOptions (info p))
         else None |} in
  if Packager.isPrepackedAppAsar (info p) then
    CopyEach (_computeFileSets [new_FileMatcher appDir resourcePath]) transformer
  else
    match asarOptions with
    | None =>
        let transformerForExtraFiles := createTransformerForExtraFiles p packContext in
        CopyEach (_computeFileSets mainMatchers)
          (combinedTransformer transformerForExtraFiles transformer)
    | Some asarOptions =>
        let unpackPattern :=
          getFileMatchers config "asarUnpack" appDir defaultDestination
            {| macroExpander := macroExpander;
               customBuildOptions := platformSpecificBuildOptions;
               outDir := ctx_outDir packContext |} in
        let fileMatcher :=
          match unpackPattern with
          | None => None
          | Some unpackPattern => head unpackPattern
          end in
        PackAsar (_computeFileSets mainMatchers) transformer asarOptions fileMatcher
    end.

(** The closure [computeParsedPatterns] of [doPack]: every matcher pushes
    its parsed patterns onto the shared array [excludePatterns]. *)
Definition computeParsedPatterns_of (p : PlatformPackager)
    (patterns : option (list FileMatcher.t)) (excludePatterns : list Minimatch)
    : list Minimatch :=
  match patterns with
  | Some patterns =>
      fold_left (fun excludePatterns pattern =>
                   excludePatterns ++ computeParsedPatterns pattern (projectDir p))
        patterns excludePatterns
  | None => excludePatterns
  end.

(** [doPack].  A [return] of the source ends the run with [ret tt]. *)
Definition doPack (env : Env) (p : PlatformPackager) (outDir appOutDir : string)
    (platformName : string) (arch : Arch)
    (platformSpecificBuildOptions : PlatformSpecificBuildOptions.t)
    (targets : list Target.t) : M unit :=
  if ne_null (Packager.prepackaged (info p)) then ret tt
  else
    let macroExpander := fun it : string =>
      expandMacro p it (Val (Arch_name arch)) {[ "/*" := "{,/**/*}" ]} true in
    let framework := Packager.framework (info p) in
    emit (EvLogInfo "packaging") ;;
    await env SPrepareStage
          (EvPrepareStage appOutDir platformName (Arch_name arch)
             (Framework.version framework)) ;;
    let excludePatterns : list Minimatch := [] in
    let getFileMatchersOptions :=
      {| macroExpander := macroExpander;
         customBuildOptions := platformSpecificBuildOptions;
         outDir := outDir |} in
    extraResourceMatchers <-
      call env SExtraResourceMatchers
        (getExtraFileMatchers p true appOutDir getFileMatchersOptions) ;;
    let excludePatterns :=
      computeParsedPatterns_of p extraResourceMatchers excludePatterns in
    extraFileMatchers <-
      call env SExtraFileMatchers
        (getExtraFileMatchers p false appOutDir getFileMatchersOptions) ;;
    let excludePatterns :=
      computeParsedPatterns_of p extraFileMatchers excludePatterns in
    let packContext :=
      {| ctx_appOutDir := appOutDir; ctx_outDir := outDir; ctx_arch := arch;
         ctx_targets := targets; ctx_electronPlatformName := platformName |} in
    asarOptions <- computeAsarOptions env p platformSpecificBuildOptions ;;
    let resourcesPath :=
      if is_MAC (platform p)
      then path_join [appOutDir; Framework.distMacOsAppName framework;
                      "Contents"; "Resources"]
      else if isElectronBased p then path_join [appOutDir; "resources"]
      else appOutDir in
    task <-
      call env SCopyAppFiles
        (copyAppFiles p asarOptions resourcesPath
           (path_join [resourcesPath; "app"]) packContext
           platformSpecificBuildOptions excludePatterns macroExpander) ;;
    await env SMainCopy (EvMainCopy task) ;;
    cancelled <- readCancelled ;;
    if cancelled then ret tt
    else
      (if Framework.beforeCopyExtraFiles framework then
             match asarOptions with
                 | None => ret tt
                 | Some asarOptions =>
                     await env SComputeData
                       (EvComputeData resourcesPath
                          (js_truthy (js_get asarOptions "externalAllowed")))
                 end ;;
             await env SBeforeCopyExtraFiles
               (EvBeforeCopyExtraFiles appOutDir (bool_decide (asarOptions <> None)))
           else ret tt) ;;
      let transformerForExtraFiles := createTransformerForExtraFiles p packContext in
      await env SCopyExtraResources
            (EvCopyFiles extraResourceMatchers transformerForExtraFiles) ;;
      await env SCopyExtraFiles
            (EvCopyFiles extraFileMatchers transformerForExtraFiles) ;;
      cancelled <- readCancelled ;;
      if cancelled then ret tt
      else
        await env SAfterPack (EvAfterPack packContext) ;;
        let isAsar := bool_decide (asarOptions <> None) in
        emit (EvSanityCheck appOutDir isAsar) ;;
        suspend env SSanityCheck ;;
        lift (sanityCheckPackage env p appOutDir isAsar) ;;
        await env SSignApp (EvSignApp packContext isAsar) ;;
        await env SAfterSign (EvAfterSign packContext).

End Methods.

(** ** The class [PlatformPackager], the other methods

    The methods above are the ones of the packaging pipeline.  The ones
    below read more of the packager: options that [Configuration] and the
    platform-specific options share, the environment of the process, and
    the directory of the build resources. *)

(** Options present both in [Configuration] and in the platform-specific
    options. *)
Module CommonOptions.
Record t : Type := {
  cscLink : nullable string;
  cscKeyPassword : nullable string;
  forceCodeSigning : nullable bool;
  icon : nullable string
}.
End CommonOptions.

(** A packager with the state these methods read: [configOptions] are
    fields of [this.config], [platformOptions] fields of
    [this.platformSpecificBuildOptions], [processEnv] is [process.env],
    [resourceList] the value of the lazy listing of [buildResourcesDir],
    [outputDirectory] is [config.directories.output]; [getDefaultIcon] and
    [isDefaultAppIconProvided] belong to the framework. *)
Record Settings : Type := {
  packager : PlatformPackager;
  configOptions : CommonOptions.t;
  platformOptions : CommonOptions.t;
  processEnv : gmap string string;
  buildResourcesDir : string;
  resourceList : list string;
  outputDirectory : string;
  getDefaultIcon : option (Platform -> nullable string);
  isDefaultAppIconProvided : bool
}.

(** [process.env[name]]: a variable that is not set reads as [undefined]. *)
Definition env_get (processEnv : gmap string string) (name : string)
    : nullable string :=
  match processEnv !! name with
  | Some value => Val value
  | None => Undefined
  end.

(** Functions of builder-util and of JavaScript's strings these methods
    call: [getArchSuffix], [isEmptyOrSpaces] on a string that is not null,
    and [toUpperCase]. *)
Class BuilderUtil : Type := {
  getArchSuffix : Arch -> string;
  isEmptyOrSpaces : string -> bool;
  toUpperCase : string -> string
}.

(** [Platform.nodeName]. *)
Definition nodeName (platform : Platform) : string :=
  match platform with MAC => "darwin" | LINUX => "linux" | WINDOWS => "win32" end.

(** [chooseNotNull]. *)
Definition chooseNotNull {A} (v1 v2 : nullable A) : nullable A :=
  if eq_null v1 then v2 else v1.

(** [normalizeExt]: [ext.substring(1)] is the rest of the string. *)
Definition normalizeExt (ext : string) : string :=
  if startsWith ext "." then String.substring 1 (String.length ext - 1) ext
  else ext.

(** The icon formats, with their names. *)
Inductive IconFormat : Type := icns | ico | set.

Definition IconFormat_name (format : IconFormat) : string :=
  match format with icns => "icns" | ico => "ico" | set => "set" end.

Record IconInfo : Type := { file : string; size : nat }.

(** What the conversion tool answers, once parsed. *)
Record IconConvertResult : Type := {
  icons : nullable (list IconInfo);
  error : nullable string;
  errorCode : nullable string
}.

(** The tool: [executeAppBuilder], which may throw, and [JSON.parse] of its
    answer, [None] when the answer does not parse. *)
Record IconTool : Type := {
  executeAppBuilder : list string -> Result string;
  parseResult : string -> option IconConvertResult
}.

Section OtherMethods.

Context {path : PathApi} {collaborators : Collaborators} {util : BuilderUtil}.

(** [getCscLink]. *)
Definition getCscLink (x : Settings) (extraEnvName : nullable string)
    : nullable string :=
  let envValue :=
    chooseNotNull
      (match extraEnvName with
       | Val extraEnvName => env_get (processEnv x) extraEnvName
       | _ => Null
       end)
      (env_get (processEnv x) "CSC_LINK") in
  chooseNotNull
    (chooseNotNull (CommonOptions.cscLink (configOptions x))
       (CommonOptions.cscLink (platformOptions x)))
    envValue.

(** [doGetCscPassword]. *)
Definition doGetCscPassword (x : Settings) : nullable string :=
  chooseNotNull
    (chooseNotNull (CommonOptions.cscKeyPassword (configOptions x))
       (CommonOptions.cscKeyPassword (platformOptions x)))
    (env_get (processEnv x) "CSC_KEY_PASSWORD").

(** [get forceCodeSigning()]. *)
Definition forceCodeSigning (x : Settings) : bool :=
  let forceCodeSigningPlatform :=
    CommonOptions.forceCodeSigning (platformOptions x) in
  js_or (fun b : bool => b)
    (if eq_null forceCodeSigningPlatform
     then CommonOptions.forceCodeSigning (configOptions x)
     else forceCodeSigningPlatform)
    false.

(** [computeAppOutDir]. *)
Definition computeAppOutDir (p : PlatformPackager) (outDir : string) (arch : Arch)
    : string :=
  js_or truthy_string (Packager.prepackaged (info p))
    (path_join
       [outDir;
        buildConfigurationKey (platform p) +:+ getArchSuffix arch
        +:+ (if is_MAC (platform p) then "" else "-unpacked")]).

(** [pack]: the result is the directory handed to
    [packageInDistributableFormat] with the operations this performs. *)
Definition pack (env : Env) (p : PlatformPackager) (outDir : string) (arch : Arch)
    (targets : list Target.t) : M (string * list TaskOp) :=
  let appOutDir := computeAppOutDir p outDir arch in
  doPack env p outDir appOutDir (nodeName (platform p)) arch
    (platformSpecificBuildOptions p) targets ;;
  ret (appOutDir, packageInDistributableFormat targets).

(** [generateName2]. *)
Definition generateName2 (p : PlatformPackager) (ext classifier : nullable string)
    (deployment : bool) : string :=
  let dotExt := match ext with Val ext => "." +:+ ext | _ => "" end in
  let separator :=
    match ext with
    | Val ext => if String.eqb ext "deb" then "_" else "-"
    | _ => "-"
    end in
  (if deployment then name (appInfo p) else productFilename (appInfo p))
  +:+ separator +:+ version (appInfo p)
  +:+ match classifier with
      | Val classifier => separator +:+ classifier
      | _ => ""
      end
  +:+ dotExt.

(** [resourceList.includes(name)]. *)
Definition listed (x : Settings) (name : string) : bool :=
  existsb (String.eqb name) (resourceList x).

(** [getResource]; the error is an [InvalidConfigurationError]. *)
Definition getResource (env : Env) (x : Settings) (custom : nullable string)
    (names : list string) : Result (nullable string) :=
  let resourcesDir := buildResourcesDir x in
  match custom with
  | Undefined =>
      match List.find (listed x) names with
      | Some name => Ok (Val (path_join [resourcesDir; name]))
      | None => Ok Null
      end
  | Null => Ok Null
  | Val custom =>
      if isEmptyOrSpaces custom then Ok Null
      else if listed x custom then Ok (Val (path_join [resourcesDir; custom]))
      else
        let p := path_resolve [resourcesDir; custom] in
        match statOrNull env p with
        | Some _ => Ok (Val p)
        | None =>
            let p := path_resolve [projectDir (packager x); custom] in
            match statOrNull env p with
            | Some _ => Ok (Val p)
            | None => Err (Thrown "cannot find specified resource")
            end
        end
  end.

(** The loop of [resolveIcon] that adds the sources to the arguments. *)
Fixpoint pushInputs (args sources : list string) : list string :=
  match sources with
  | [] => args
  | source :: rest => pushInputs (args ++ ["--input"; source]) rest
  end.

(** [resolveIcon]. *)
Definition resolveIcon (tool : IconTool) (x : Settings) (sources : list string)
    (outputFormat : IconFormat) : Result (list IconInfo) :=
  let args :=
    ["icon";
     "--format"; IconFormat_name outputFormat;
     "--root"; buildResourcesDir x;
     "--root"; projectDir (packager x);
     "--out";
     path_resolve [projectDir (packager x); outputDirectory x;
                   ".icon-" +:+ IconFormat_name outputFormat]] in
  let args := pushInputs args sources in
  match executeAppBuilder tool args with
  | Err e => Err e
  | Ok rawResult =>
      match parseResult tool rawResult with
      | None => Err (Thrown "Cannot parse result")
      | Some result =>
          match error result with
          | Val errorMessage => Err (Thrown errorMessage)
          | _ =>
              Ok (match icons result with
                  | Val icons => icons
                  | _ => []
                  end)
          end
      end
  end.

(** [capitalizeFirstLetter]: [text.charAt(0)] is the first character or the
    empty string, [text.slice(1)] the rest. *)
Definition capitalizeFirstLetter (text : string) : string :=
  match text with
  | EmptyString => toUpperCase EmptyString +:+ EmptyString
  | String c rest => toUpperCase (String c EmptyString) +:+ rest
  end.

(** [getOrConvertIcon]: the icon, with the warning it logs when there is
    none. *)
Definition getOrConvertIcon (tool : IconTool) (x : Settings) (format : IconFormat)
    : Result (nullable string * option string) :=
  let sourceNames :=
    ["icon." +:+ match format with set => "png" | _ => IconFormat_name format end;
     "icon.png"; "icons"] in
  let iconPath :=
    match CommonOptions.icon (platformOptions x) with
    | Val icon => if truthy_string icon then Val icon
                  else CommonOptions.icon (configOptions x)
    | _ => CommonOptions.icon (configOptions x)
    end in
  let sourceNames :=
    match iconPath with
    | Val iconPath => iconPath :: sourceNames
    | _ => sourceNames
    end in
  let sourceNames :=
    match format with
    | ico => sourceNames ++ ["icon.icns"]
    | _ => sourceNames
    end in
  match resolveIcon tool x sourceNames format with
  | Err e => Err e
  | Ok [] =>
      match getDefaultIcon x with
      | Some getDefaultIcon => Ok (getDefaultIcon (platform (packager x)), None)
      | None =>
          Ok (Null,
              Some (if isDefaultAppIconProvided x
                    then "default "
                         +:+ capitalizeFirstLetter
                               (Framework.name (Packager.framework (info (packager x))))
                         +:+ " icon is used"
                    else "application doesn't have an icon"))
      end
  | Ok (first :: _) => Ok (Val (file first), None)
  end.

End OtherMethods.

(** ** Models of the surroundings

    The theorems below hold for every [PathApi], every [Collaborators] and
    every [Env].  To run the class on concrete inputs, this part gives one
    of each: Node's [path] for POSIX, and models of the collaborators. *)

Module Posix.

Definition slash : ascii := "/"%char.

(** [normalizeString]: the segments of a path with [.] and empty segments
    dropped and [..] resolved; [acc] holds the result so far, last segment
    first. *)
Fixpoint normalizeSegments (allowAboveRoot : bool) (segments acc : list string)
    : list string :=
  match segments with
  | [] => rev acc
  | segment :: rest =>
      if String.eqb segment "" || String.eqb segment "." then
        normalizeSegments allowAboveRoot rest acc
      else if String.eqb segment ".." then
        match acc with
        | top :: acc' =>
            if String.eqb top ".." then
              normalizeSegments allowAboveRoot rest
                (if allowAboveRoot then ".." :: acc else acc)
            else normalizeSegments allowAboveRoot rest acc'
        | [] =>
            normalizeSegments allowAboveRoot rest
              (if allowAboveRoot then [".."] else [])
        end
      else normalizeSegments allowAboveRoot rest (segment :: acc)
  end.

Definition normalizeString (p : string) (allowAboveRoot : bool) : string :=
  join_with "/" (normalizeSegments allowAboveRoot (split slash p) []).

Definition normalize (p : string) : string :=
  if String.eqb p "" then "."
  else
    let isAbsolute := startsWith p "/" in
    let trailingSeparator := endsWith p "/" in
    let p' := normalizeString p (negb isAbsolute) in
    if String.eqb p' "" then
      if isAbsolute then "/" else if trailingSeparator then "./" else "."
    else
      let p' := if trailingSeparator then p' +:+ "/" else p' in
      if isAbsolute then "/" +:+ p' else p'.

Definition join (args : list string) : string :=
  match List.filter (fun arg => negb (String.eqb arg "")) args with
  | [] => "."
  | parts => normalize (join_with "/" parts)
  end.

(** The loop of [resolve], from the last argument to the first and then the
    working directory, until an absolute path is reached. *)
Fixpoint resolveLoop (args : list string) (resolvedPath : string) : string * bool :=
  match args with
  | [] => (resolvedPath, false)
  | p :: rest =>
      if String.eqb p "" then resolveLoop rest resolvedPath
      else
        let resolvedPath := p +:+ "/" +:+ resolvedPath in
        if startsWith p "/" then (resolvedPath, true)
        else resolveLoop rest resolvedPath
  end.

Definition resolve (cwd : string) (args : list string) : string :=
  let '(resolvedPath, resolvedAbsolute) := resolveLoop (rev args ++ [cwd]) "" in
  let resolvedPath := normalizeString resolvedPath (negb resolvedAbsolute) in
  if resolvedAbsolute then "/" +:+ resolvedPath
  else if String.eqb resolvedPath "" then "." else resolvedPath.

(** The segments two resolved paths do not share. *)
Fixpoint dropCommon (from to : list string) : list string * list string :=
  match from, to with
  | f :: from', t :: to' =>
      if String.eqb f t then dropCommon from' to' else (from, to)
  | _, _ => (from, to)
  end.

Definition segmentsOf (resolved : string) : list string :=
  List.filter (fun segment => negb (String.eqb segment "")) (split slash resolved).

Definition relative (cwd from to : string) : string :=
  if String.eqb from to then ""
  else
    let from := resolve cwd [from] in
    let to := resolve cwd [to] in
    if String.eqb from to then ""
    else
      let '(up, down) := dropCommon (segmentsOf from) (segmentsOf to) in
      join_with "/" (map (fun _ => "..") up ++ down).

(** [parse]: trailing separators are skipped, [base] is what follows the
    last separator left, [dir] what precedes it. *)
Fixpoint dropSlashes (chars : list ascii) : list ascii :=
  match chars with
  | c :: rest => if Ascii.eqb c slash then dropSlashes rest else chars
  | [] => []
  end.

Fixpoint spanBase (chars : list ascii) : list ascii * list ascii :=
  match chars with
  | c :: rest =>
      if Ascii.eqb c slash then ([], chars)
      else let '(b, r) := spanBase rest in (c :: b, r)
  | [] => ([], [])
  end.

Definition parse (p : string) : ParsedPath :=
  let isAbsolute := startsWith p "/" in
  let '(baseRev, restRev) :=
    spanBase (dropSlashes (rev (list_ascii_of_string p))) in
  let base := string_of_list_ascii (rev baseRev) in
  match restRev with
  | [] => {| dir := if isAbsolute then "/" else ""; base := base |}
  | _ :: before =>
      match before with
      | [] => {| dir := if isAbsolute then "/" else ""; base := base |}
      | _ => {| dir := string_of_list_ascii (rev before); base := base |}
      end
  end.

(** Node's [path] for POSIX in the working directory [cwd]. *)
Definition api (cwd : string) : PathApi :=
  {| path_sep := slash;
     path_join := join;
     path_resolve := resolve cwd;
     path_relative := relative cwd;
     path_parse := parse |}.

End Posix.

Module Model.

(** Modelled from the spec: the macro expander of [./util/macroExpander],
    which is not part of the sources at hand.  It substitutes the named
    placeholders [${productName}], [${name}], [${version}], [${arch}] and
    the extra fields such as [${ext}] and [${os}]; the product name is the
    sanitized one unless the flag says otherwise; an unknown placeholder is
    an error; with no architecture the architecture segment is omitted
    together with the separator before it. *)
Fixpoint expandPlaceholders (value : string -> Result string)
    (inside : option string) (s : string) : Result string :=
  match inside, s with
  | None, EmptyString => Ok EmptyString
  | None, String "$" (String "{" rest) => expandPlaceholders value (Some "") rest
  | None, String c rest =>
      match expandPlaceholders value None rest with
      | Ok r => Ok (String c r)
      | Err e => Err e
      end
  | Some macro, EmptyString => Ok ("${" +:+ macro)
  | Some macro, String "}" rest =>
      match value macro, expandPlaceholders value None rest with
      | Ok v, Ok r => Ok (v +:+ r)
      | Err e, _ => Err e
      | _, Err e => Err e
      end
  | Some macro, String c rest =>
      expandPlaceholders value (Some (macro +:+ String c EmptyString)) rest
  end.

(** [s.replace(what, "")]: the first occurrence is removed. *)
Fixpoint removeFirst (what s : string) : string :=
  if String.prefix what s then
    String.substring (String.length what) (String.length s - String.length what) s
  else
    match s with
    | EmptyString => EmptyString
    | String c rest => String c (removeFirst what rest)
    end.

Definition expandMacro (pattern : string) (arch : nullable string)
    (appInfo : AppInfo) (extra : gmap string string)
    (isProductNameSanitized : bool) : Result string :=
  let pattern :=
    match arch with
    | Val _ => pattern
    | _ =>
        removeFirst "/${arch}"
          (removeFirst "_${arch}"
             (removeFirst " ${arch}" (removeFirst "-${arch}" pattern)))
    end in
  expandPlaceholders
    (fun macro =>
       if String.eqb macro "productName" then
         Ok (if isProductNameSanitized then productFilename appInfo
             else productName appInfo)
       else if String.eqb macro "name" then Ok (name appInfo)
       else if String.eqb macro "version" then Ok (version appInfo)
       else if String.eqb macro "arch" then
         Ok (match arch with Val arch => arch | _ => "" end)
       else
         match extra !! macro with
         | Some v => Ok v
         | None => Err (UnknownMacro macro)
         end)
    None pattern.

(** Modelled from the spec: [getFileMatchers] of [./fileMatcher], which is
    not part of the sources at hand.  The patterns configured under the
    given name become one matcher from the default source to the default
    destination; there is no matcher when none is configured. *)
Definition getFileMatchers (config : Configuration.t) (name : string)
    (defaultSrc defaultDestination : string) (options : GetFileMatchersOptions)
    : option (list FileMatcher.t) :=
  let configured :=
    if String.eqb name "extraResources" then Configuration.extraResources config
    else if String.eqb name "extraFiles" then Configuration.extraFiles config
    else if String.eqb name "asarUnpack" then Configuration.asarUnpack config
    else Undefined in
  match configured with
  | Val (pattern :: rest) =>
      Some [{| FileMatcher.from := defaultSrc;
               FileMatcher.to := defaultDestination;
               FileMatcher.patterns := pattern :: rest;
               FileMatcher.excludePatterns := Null |}]
  | _ => None
  end.

(** Modelled from the spec: [getMainFileMatchers] and
    [getNodeModuleFileMatcher] of [./fileMatcher]: one matcher of the whole
    application directory. *)
Definition getMainFileMatchers (appDir destination : string)
    (macroExpander : string -> Result string)
    (options : PlatformSpecificBuildOptions.t) (packager : PlatformPackager)
    (outDir : string) (isElectronCompile : bool) : list FileMatcher.t :=
  [{| FileMatcher.from := appDir; FileMatcher.to := destination;
      FileMatcher.patterns := ["**/*"]; FileMatcher.excludePatterns := Null |}].

Definition getNodeModuleFileMatcher (appDir destination : string)
    (macroExpander : string -> Result string)
    (options : PlatformSpecificBuildOptions.t) (packager : Packager.t)
    : FileMatcher.t :=
  {| FileMatcher.from := appDir; FileMatcher.to := destination;
     FileMatcher.patterns := ["node_modules/**/*"];
     FileMatcher.excludePatterns := Null |}.

(** Modelled from the spec: [FileMatcher.computeParsedPatterns], which is
    not part of the sources at hand: the matcher's patterns, compiled, in
    declaration order. *)
Definition computeParsedPatterns (matcher : FileMatcher.t) (fromDir : string)
    : list Minimatch :=
  map (fun pattern => {| pattern := pattern |}) (FileMatcher.patterns matcher).

(** A glob without wildcard matches the path it spells; [**/*] matches
    every path. *)
Definition globMatches (pattern file : string) : bool :=
  String.eqb pattern "**/*" || String.eqb pattern file.

(** Modelled from the spec: the result of a matcher over the files below
    its source root ([FileMatcher] of [./fileMatcher] is not part of the
    sources at hand).  A file is matched when an inclusion pattern matches
    it and no exclusion pattern does; exclusion is applied after inclusion,
    and a matcher without pattern matches nothing.  The result pairs the
    source path with the destination path. *)
Definition matcherResults (files : list string) (matcher : FileMatcher.t)
    : list (string * string) :=
  let excluded := fun file =>
    match FileMatcher.excludePatterns matcher with
    | Val excludePatterns =>
        existsb (fun exclude => globMatches (pattern exclude) file) excludePatterns
    | _ => false
    end in
  map (fun file =>
         (Posix.join [FileMatcher.from matcher; file],
          Posix.join [FileMatcher.to matcher; file]))
    (List.filter (fun file =>
               existsb (fun pattern => globMatches pattern file)
                 (FileMatcher.patterns matcher)
               && negb (excluded file))
       files).

Definition destinations (files : list string)
    (matchers : option (list FileMatcher.t)) : list string :=
  match matchers with
  | Some matchers => flat_map (fun matcher => map snd (matcherResults files matcher)) matchers
  | None => []
  end.

(** Modelled from the spec: the content transformer of [./fileTransformer]
    is a collaborator, [transform(destRelativePath, rawBytes) -> bytes|null];
    this one rewrites nothing. *)
Definition createTransformer (appDir : string) (config : Configuration.t)
    (metadata : TransformerMetadata) (frameworkTransformer : option FileTransformer)
    : FileTransformer :=
  fun file =>
    match frameworkTransformer with
    | Some transformer => transformer file
    | None => None
    end.

(** Modelled from the spec: [deepAssign] of builder-util, which is not part
    of the sources at hand: the properties of the source are assigned to
    the target, so that [deepAssign({}, o)] is a copy of [o]. *)
Definition deepAssign (target source : JsObject) : JsObject := source ∪ target.

Definition collaborators : Collaborators :=
  Build_Collaborators getFileMatchers getMainFileMatchers getNodeModuleFileMatcher
    computeParsedPatterns createTransformer expandMacro deepAssign "__shim.js".

(** Modelled from the spec: [statOrNull] of builder-util over a file system
    given as the list of its paths, and [checkFileInArchive] of
    [./asar/asarFileChecker] over the archives given with the files they
    hold; neither is part of the sources at hand.  A file that the archive
    does not hold is an error. *)
Definition statOrNull (files : list (string * Stats)) (file : string) : option Stats :=
  snd <$> List.find (fun entry => String.eqb (fst entry) file) files.

Definition checkFileInArchive (archives : list (string * list string))
    (asarFile relativeFile messagePrefix : string) : Result unit :=
  match List.find (fun entry => String.eqb (fst entry) asarFile) archives with
  | None => Err (Thrown "archive does not exist")
  | Some (_, held) =>
      if existsb (String.eqb relativeFile) held then Ok tt
      else Err (FileMissing messagePrefix relativeFile)
  end.

Definition aFile : Stats := {| isFile := true; isDirectory := false |}.
Definition aDirectory : Stats := {| isFile := false; isDirectory := true |}.

(** An environment in which no call throws; the token is set while the
    steps of [cancelling] are awaited. *)
Definition env (files : list (string * Stats)) (archives : list (string * list string))
    (cancelling : Step -> bool) : Env :=
  Build_Env (statOrNull files) (checkFileInArchive archives) (fun _ => None)
    cancelling.

(** Modelled from the spec: what the copy of a file writes to its
    destination, [transform(destRelativePath, rawBytes) -> bytes|null]
    where [null] means that the file is copied unchanged ([copyAppFiles] of
    [./util/appFileCopier] is not part of the sources at hand). *)
Definition written (raw : string -> string) (transformer : FileTransformer)
    (file : string) : string :=
  match transformer file with
  | Some content => content
  | None => raw file
  end.

(** Modelled from the spec: the task manager of builder-util, which is not
    part of the sources at hand.  The spec says of it: [add] and [addTask]
    register work; [awaitTasks] completes when all the registered tasks
    finish or the shared cancellation token is observed; the first task to
    fail makes [awaitTasks] reject, its siblings are not aborted but their
    results are discarded; cancellation is checked before a new top-level
    batch of tasks is started, and the token is never reset.

    [Builds] is what the builds and the driver of the build do during one
    run: whether the build of a target fails, whether the token is set
    when the run starts, and whether the driver sets it while the batch is
    awaited. *)
Record Builds : Type := {
  fails : Target.t -> bool;
  cancelledBefore : bool;
  cancelledMeanwhile : bool
}.

(** [BuildStarted]: the target's [build] was called; [BuildFinished]: an
    await saw the build complete; [BuildFailed]: an await saw it fail. *)
Inductive BuildEvent : Type :=
| BuildStarted (target : Target.t)
| BuildFinished (target : Target.t)
| BuildFailed (target : Target.t).

(** The state of a run: the token, the builds registered on the task
    manager created inside the added function, the events so far in
    order, and whether the added function has thrown. *)
Record TaskState : Type := {
  token : bool;
  pending : list Target.t;
  log : list BuildEvent;
  thrown : bool
}.

(** [add] does not start the function once the token is set.
    [awaitTasks] on the task manager of the added function observes the
    token, set before or meanwhile, and then completes with the builds in
    flight; otherwise it rejects with the first build that fails, or
    completes when every build has finished.  An awaited build that fails
    throws.  After a throw the rest of the added function is not run; the
    error stays with the caller's task manager, which
    [packageInDistributableFormat] does not await. *)
Fixpoint runTaskOp (builds : Builds) (op : TaskOp) (state : TaskState) : TaskState :=
  if thrown state then state
  else
    match op with
    | AddTask CallerTaskManager target =>
        {| token := token state; pending := pending state;
           log := log state ++ [BuildStarted target]; thrown := false |}
    | AddTask SubTaskManager target =>
        {| token := token state; pending := pending state ++ [target];
           log := log state ++ [BuildStarted target]; thrown := false |}
    | Add _ body =>
        if token state then state
        else
          let after :=
            fold_left (fun state op => runTaskOp builds op state) body state in
          {| token := token after; pending := pending after; log := log after;
             thrown := false |}
    | NewTaskManager _ =>
        {| token := token state; pending := []; log := log state; thrown := false |}
    | AwaitTasks CallerTaskManager => state
    | AwaitTasks SubTaskManager =>
        if token state || cancelledMeanwhile builds
        then {| token := true; pending := []; log := log state; thrown := false |}
        else
          match List.find (fails builds) (pending state) with
          | Some target =>
              {| token := false; pending := [];
                 log := log state ++ [BuildFailed target]; thrown := true |}
          | None =>
              {| token := false; pending := [];
                 log := log state ++ map BuildFinished (pending state);
                 thrown := false |}
          end
    | AwaitBuild target =>
        if fails builds target
        then {| token := token state; pending := pending state;
                log := log state ++ [BuildStarted target; BuildFailed target];
                thrown := true |}
        else {| token := token state; pending := pending state;
                log := log state ++ [BuildStarted target; BuildFinished target];
                thrown := false |}
    end.

Definition runTaskOps (builds : Builds) (ops : list TaskOp) : list BuildEvent :=
  log (fold_left (fun state op => runTaskOp builds op state) ops
         {| token := cancelledBefore builds; pending := []; log := [];
            thrown := false |}).


(** Modelled from the spec: [getArchSuffix] and [isEmptyOrSpaces] of
    builder-util are not part of the sources at hand, and the spec does not
    describe them.  The theorems hold for every such function; the examples
    run these: x64 has no suffix and any other architecture its name, a
    string is blank when it holds spaces only, and [toUpperCase] is the one
    of ASCII letters. *)
Definition getArchSuffix (arch : Arch) : string :=
  if Arch_eqb arch x64 then "" else "-" +:+ Arch_name arch.

Definition isEmptyOrSpaces (s : string) : bool :=
  forallb (fun c => Ascii.eqb c " "%char) (list_ascii_of_string s).

Definition upperChar (c : ascii) : ascii :=
  let n := nat_of_ascii c in
  if ((97 <=? n)%nat && (n <=? 122)%nat)%bool then ascii_of_nat (n - 32) else c.

Definition toUpperCase (s : string) : string :=
  string_of_list_ascii (map upperChar (list_ascii_of_string s)).

Definition builderUtil : BuilderUtil :=
  Build_BuilderUtil getArchSuffix isEmptyOrSpaces toUpperCase.

(** The targets whose build a run started, and those whose build it
    finished, in order. *)
Definition startedTargets (log : list BuildEvent) : list Target.t :=
  flat_map (fun ev => match ev with BuildStarted target => [target] | _ => [] end) log.

Definition finishedTargets (log : list BuildEvent) : list Target.t :=
  flat_map (fun ev => match ev with BuildFinished target => [target] | _ => [] end) log.

End Model.

(** Sample inputs: an application built for Linux with Electron, and the
    same one built for macOS. *)
Module Sample.

Definition configuration : Configuration.t :=
  {| Configuration.compression := Undefined;
     Configuration.asar := Undefined;
     Configuration.asar_unpack := Undefined;
     Configuration.asar_unpack_dir := Undefined;
     Configuration.artifactName := Undefined;
     Configuration.extraMetadata := Undefined;
     Configuration.extraResources := Undefined;
     Configuration.extraFiles := Undefined;
     Configuration.asarUnpack := Undefined |}.

Definition electron : Framework.t :=
  {| Framework.name := "electron";
     Framework.version := "2.0.0";
     Framework.distMacOsAppName := "Electron.app";
     Framework.isElectronBased := true;
     Framework.beforeCopyExtraFiles := false;
     Framework.createTransformer := None |}.

Definition options : PlatformSpecificBuildOptions.t :=
  {| PlatformSpecificBuildOptions.compression := Undefined;
     PlatformSpecificBuildOptions.asar := Undefined;
     PlatformSpecificBuildOptions.artifactName := Undefined |}.

Definition fooApp : AppInfo :=
  {| productName := "Foo App"; productFilename := "Foo App";
     name := "foo-app"; version := "1.2.3" |}.

Definition packagerInfo (config : Configuration.t) (framework : Framework.t)
    (main prepackaged : nullable string) : Packager.t :=
  {| Packager.prepackaged := prepackaged;
     Packager.appDir := "/project/app";
     Packager.projectDir := "/project";
     Packager.config := config;
     Packager.metadata_main := main;
     Packager.framework := framework;
     Packager.isPrepackedAppAsar := false;
     Packager.areNodeModulesHandledExternally := false;
     Packager.isElectronCompileUsed := false |}.

Definition packagerOf (platform : Platform) (info : Packager.t) : PlatformPackager :=
  {| info := info;
     platform := platform;
     platformSpecificBuildOptions := options;
     appInfo := fooApp;
     createTransformerForExtraFiles := fun _ => None |}.

Definition linux : PlatformPackager :=
  packagerOf LINUX (packagerInfo configuration electron Undefined Undefined).

Definition mac : PlatformPackager :=
  packagerOf MAC (packagerInfo configuration electron Undefined Undefined).

Definition deb : Target.t := {| Target.name := "deb"; Target.isAsyncSupported := true |}.
Definition appImage : Target.t :=
  {| Target.name := "AppImage"; Target.isAsyncSupported := true |}.
Definition snap : Target.t := {| Target.name := "snap"; Target.isAsyncSupported := false |}.
Definition remote : Target.t :=
  {| Target.name := "remote"; Target.isAsyncSupported := false |}.

Definition start : World := {| cancelled := false; trace := [] |}.

Definition outDir : string := "/project/dist".
Definition appOutDir : string := "/project/dist/linux-unpacked".

(** The output of a build that archived the application. *)
Definition packedFiles : list (string * Stats) :=
  [("/project/dist/linux-unpacked", Model.aDirectory);
   ("/project/dist/linux-unpacked/resources", Model.aDirectory);
   ("/project/dist/linux-unpacked/resources/app.asar", Model.aFile)].

Definition packedArchives : list (string * list string) :=
  [("/project/dist/linux-unpacked/resources/app.asar", ["index.js"; "package.json"])].

(** [doPack] for Linux and x64 in the project directory. *)
Definition run (env : Env) (p : PlatformPackager) : M unit :=
  @doPack (Posix.api "/project") Model.collaborators env p outDir appOutDir
    "linux" x64 options [deb].

(** The token is set while the after-pack hook is awaited. *)
Definition duringAfterPack (s : Step) : bool :=
  match s with SAfterPack => true | _ => false end.

(** The token is set while the main copy is awaited. *)
Definition duringMainCopy (s : Step) : bool :=
  match s with SMainCopy => true | _ => false end.

Definition never (s : Step) : bool := false.

(** An application packaged by hand: its entry file lies in an archive of
    the application directory, and the build does not archive. *)
Definition unarchived : Configuration.t :=
  {| Configuration.compression := Undefined;
     Configuration.asar := Val (AsarBool false);
     Configuration.asar_unpack := Undefined;
     Configuration.asar_unpack_dir := Undefined;
     Configuration.artifactName := Undefined;
     Configuration.extraMetadata := Undefined;
     Configuration.extraResources := Undefined;
     Configuration.extraFiles := Undefined;
     Configuration.asarUnpack := Undefined |}.

(** An application on a framework that is not Electron-based, with one
    file configured both as an extra resource and as an extra file. *)
Definition protonNative : Framework.t :=
  {| Framework.name := "proton-native";
     Framework.version := "1.0.0";
     Framework.distMacOsAppName := "Proton.app";
     Framework.isElectronBased := false;
     Framework.beforeCopyExtraFiles := false;
     Framework.createTransformer := None |}.

Definition sharedExtras : Configuration.t :=
  {| Configuration.compression := Undefined;
     Configuration.asar := Undefined;
     Configuration.asar_unpack := Undefined;
     Configuration.asar_unpack_dir := Undefined;
     Configuration.artifactName := Undefined;
     Configuration.extraMetadata := Undefined;
     Configuration.extraResources := Val ["shared.txt"];
     Configuration.extraFiles := Val ["shared.txt"];
     Configuration.asarUnpack := Undefined |}.

Definition withSharedExtras : PlatformPackager :=
  packagerOf LINUX (packagerInfo sharedExtras protonNative Undefined Undefined).

Definition projectFiles : list string := ["shared.txt"; "README.md"].

Definition unpackedFiles : list (string * Stats) :=
  [("/project/dist/linux-unpacked", Model.aDirectory);
   ("/project/dist/linux-unpacked/app", Model.aDirectory);
   ("/project/dist/linux-unpacked/app/index.js", Model.aFile);
   ("/project/dist/linux-unpacked/app/package.json", Model.aFile)].

(** A packager for Windows that signs the executables it copies. *)
Definition signExecutables : FileTransformer :=
  fun file => if endsWith file ".exe" then Some "signed" else None.

Definition windows : PlatformPackager :=
  {| info := packagerInfo unarchived electron Undefined Undefined;
     platform := WINDOWS;
     platformSpecificBuildOptions := options;
     appInfo := fooApp;
     createTransformerForExtraFiles := fun _ => Some signExecutables |}.

Definition packContext : AfterPackContext :=
  {| ctx_appOutDir := "/project/dist/win-unpacked";
     ctx_outDir := "/project/dist";
     ctx_arch := x64;
     ctx_targets := [];
     ctx_electronPlatformName := "win32" |}.

Definition handPacked (main : string) : PlatformPackager :=
  packagerOf LINUX (packagerInfo unarchived electron (Val main) Undefined).

Definition handPackedFiles : list (string * Stats) :=
  [("/project/dist/linux-unpacked", Model.aDirectory);
   ("/project/dist/linux-unpacked/resources", Model.aDirectory);
   ("/project/dist/linux-unpacked/resources/app", Model.aDirectory);
   ("/project/dist/linux-unpacked/resources/app/package.json", Model.aFile);
   ("/project/dist/linux-unpacked/resources/app/a.asar", Model.aFile)].

Definition handPackedArchives : list (string * list string) :=
  [("/project/dist/linux-unpacked/resources/app/a.asar", ["index.js"; "lib/main.js"])].

(** The rest of the state of the sample packager for Linux: no option is
    set, the build resources hold two icons. *)
Definition noOptions : CommonOptions.t :=
  {| CommonOptions.cscLink := Undefined;
     CommonOptions.cscKeyPassword := Undefined;
     CommonOptions.forceCodeSigning := Undefined;
     CommonOptions.icon := Undefined |}.

Definition settingsOf (p : PlatformPackager) (configOptions platformOptions : CommonOptions.t)
    (processEnv : gmap string string) : Settings :=
  {| packager := p;
     configOptions := configOptions;
     platformOptions := platformOptions;
     processEnv := processEnv;
     buildResourcesDir := "/project/build";
     resourceList := ["icon.png"; "icon.ico"; "license.txt"];
     outputDirectory := "dist";
     getDefaultIcon := None;
     isDefaultAppIconProvided := true |}.

Definition settings : Settings := settingsOf linux noOptions noOptions ∅.

(** A conversion tool that answers with one icon whatever it is asked. *)
Definition oneIcon : IconTool :=
  {| executeAppBuilder := fun _ => Ok "one icon";
     parseResult := fun _ =>
       Some {| icons := Val [{| file := "/project/dist/.icon-ico/icon.ico"; size := 256 |}];
               error := Undefined;
               errorCode := Undefined |} |}.

End Sample.

(** ** Vocabulary of the specification *)

(** The characters the specification allows in a safe name, written out. *)
Definition safeCharacters : string :=
  "0123456789ABCDEFGHIJKLMNOPQRSTUVWXYZabcdefghijklmnopqrstuvwxyz._-".

(** A name made of safe characters only; the empty name is one. *)
Definition onlySafeCharacters (name : string) : Prop :=
  Forall (fun c => In c (list_ascii_of_string safeCharacters))
    (list_ascii_of_string name).

(** What [computeSafeArtifactName] returns of a computed artifact name. *)
Definition asSafeName (computed : Result string) : Result (nullable string) :=
  match computed with
  | Ok artifactName => Ok (Val artifactName)
  | Err e => Err e
  end.

(** The calls a run adds to the trace. *)
Definition eventsOf {A} (c : M A) (w : World) : list Event :=
  drop (length (trace w)) (trace (snd (c w))).

(** The calls the specification rules out after a cancellation: the
    after-pack hook, the sanity check, signing and the after-sign hook. *)
Definition lateEvent (ev : Event) : bool :=
  match ev with
  | EvAfterPack _ | EvSanityCheck _ _ | EvSignApp _ _ | EvAfterSign _ => true
  | _ => false
  end.

Definition noLateEvent (events : list Event) : bool :=
  forallb (fun ev => negb (lateEvent ev)) events.

(** Where a run reads the cancellation token: right after the main copy,
    right after a copy of extra files, or anywhere else. *)
Inductive Checkpoint : Type :=
| AfterMainCopy
| AfterExtraFileCopy
| Elsewhere.

Fixpoint checkpoints (previous : option Event) (events : list Event)
    : list Checkpoint :=
  match events with
  | [] => []
  | EvReadCancelled value :: rest =>
      match previous with
      | Some (EvMainCopy _) => AfterMainCopy
      | Some (EvCopyFiles _ _) => AfterExtraFileCopy
      | _ => Elsewhere
      end :: checkpoints (Some (EvReadCancelled value)) rest
  | ev :: rest => checkpoints (Some ev) rest
  end.

(** The name of the call an event records. *)
Definition eventLabel (ev : Event) : string :=
  match ev with
  | EvLogInfo _ => "log.info"
  | EvLogWarn _ => "log.warn"
  | EvPrepareStage _ _ _ _ => "prepareApplicationStageDirectory"
  | EvMainCopy _ => "copyAppFiles"
  | EvReadCancelled _ => "cancelled"
  | EvComputeData _ _ => "computeData"
  | EvBeforeCopyExtraFiles _ _ => "beforeCopyExtraFiles"
  | EvCopyFiles _ _ => "copyFiles"
  | EvAfterPack _ => "afterPack"
  | EvSanityCheck _ _ => "sanityCheckPackage"
  | EvSignApp _ _ => "signApp"
  | EvAfterSign _ => "afterSign"
  end.



(** The matchers handed to [copyFiles], call by call. *)
Definition copiedMatchers (events : list Event) : list (option (list FileMatcher.t)) :=
  flat_map (fun ev =>
              match ev with
              | EvCopyFiles matchers _ => [matchers]
              | _ => []
              end)
    events.

(** The matchers of an optional list. *)
Definition matchersOf (matchers : option (list FileMatcher.t)) : list FileMatcher.t :=
  match matchers with
  | Some matchers => matchers
  | None => []
  end.

(** The file sets a main copy task works on. *)
Definition taskFileSets (task : MainCopyTask) : FileSetsPlan :=
  match task with
  | CopyEach fileSets _ => fileSets
  | PackAsar fileSets _ _ _ => fileSets
  end.

(** The exclusion lists of the matchers of the main copy tasks. *)
Definition mainCopyExclusions (events : list Event)
    : list (nullable (list Minimatch)) :=
  flat_map (fun ev =>
              match ev with
              | EvMainCopy task =>
                  map FileMatcher.excludePatterns (plan_matchers (taskFileSets task))
              | _ => []
              end)
    events.

(** The warning [computeAsarOptions] may log. *)
Definition asarWarning (warned : bool) : list Event :=
  if warned then [EvLogWarn "asar using is disabled"] else [].

(** [wp c w Q]: the run of [c] from the world [w] ends in a result and a
    world that satisfy [Q]. *)
Definition wp {A} (c : M A) (w : World) (Q : Result A -> World -> Prop) : Prop :=
  Q (fst (c w)) (snd (c w)).

(** The names of the calls of a complete run, in order: [warned] tells
    whether [computeAsarOptions] logs its warning, [hook] whether the
    framework defines [beforeCopyExtraFiles], [integrity] whether
    [computeData] is called for it. *)
Definition pipelineLabels (warned hook integrity : bool) : list string :=
  ["log.info"; "prepareApplicationStageDirectory"]
  ++ (if warned then ["log.warn"] else [])
  ++ ["copyAppFiles"; "cancelled"]
  ++ (if hook
      then (if integrity then ["computeData"] else []) ++ ["beforeCopyExtraFiles"]
      else [])
  ++ ["copyFiles"; "copyFiles"; "cancelled"; "afterPack"; "sanityCheckPackage";
      "signApp"; "afterSign"].

(** A value that is neither [null] nor [undefined] nor the empty string. *)
Definition nonEmpty (v : nullable string) : bool :=
  match v with Val s => truthy_string s | _ => false end.

(** The arguments of the conversion tool for the candidates [sources]. *)
Definition iconArguments {path : PathApi} (x : Settings) (format : IconFormat)
    (sources : list string) : list string :=
  ["icon";
   "--format"; IconFormat_name format;
   "--root"; buildResourcesDir x;
   "--root"; projectDir (packager x);
   "--out";
   path_resolve [projectDir (packager x); outputDirectory x;
                 ".icon-" +:+ IconFormat_name format]]
  ++ flat_map (fun source => ["--input"; source]) sources.

(** An environment in which no call throws, awaited or not, and the token
    is never set. *)
Definition undisturbed (env : Env) : Prop :=
  (forall s, throws env s = None) /\ (forall s, cancels env s = false).

(** The asar options of the configuration are accepted: computing them
    raises no error, whatever the world. *)
Definition asarOptionsAccepted {path : PathApi} {collaborators : Collaborators}
    (env : Env) (p : PlatformPackager) (options : PlatformSpecificBuildOptions.t) : Prop :=
  forall w error, fst (computeAsarOptions env p options w) <> Err error.

Definition isComputeData (ev : Event) : bool :=
  match ev with EvComputeData _ _ => true | _ => false end.

Definition isBeforeCopyExtraFiles (ev : Event) : bool :=
  match ev with EvBeforeCopyExtraFiles _ _ => true | _ => false end.

Definition isPackAsar (task : MainCopyTask) : bool :=
  match task with PackAsar _ _ _ _ => true | CopyEach _ _ => false end.

(** The transformer a main copy task copies or packs with. *)
Definition taskTransformer (task : MainCopyTask) : FileTransformer :=
  match task with
  | CopyEach _ transformer => transformer
  | PackAsar _ transformer _ _ => transformer
  end.




(** The builds awaited one at a time, in order, up to the first that
    fails. *)
Fixpoint builtInTurn (fails : Target.t -> bool) (targets : list Target.t)
    : list Model.BuildEvent :=
  match targets with
  | [] => []
  | target :: rest =>
      if fails target
      then [Model.BuildStarted target; Model.BuildFailed target]
      else Model.BuildStarted target :: Model.BuildFinished target
           :: builtInTurn fails rest
  end.

(** * Properties *)

(** ** Compression level *)

(** C10: the compression level is ["normal"] when the platform-specific
    option is explicitly [null], whatever the top-level configuration says;
    otherwise it is the platform-specific value when that is set, else the
    top-level value when that is set, else ["normal"].  The result is a
    [CompressionLevel]: it is never [null] or [undefined]. *)
Theorem compression_resolution (p : PlatformPackager) :
  compression p =
    match PlatformSpecificBuildOptions.compression (platformSpecificBuildOptions p) with
    | Null => normal
    | Val level => level
    | Undefined =>
        match Configuration.compression (config p) with
        | Val level => level
        | _ => normal
        end
    end.
Proof.
  unfold compression.
  destruct (PlatformSpecificBuildOptions.compression _); simpl; reflexivity.
Qed.

(** ** Scheduling of the target builds *)

Lemma buildAsyncTargets_filter targets taskManager :
  buildAsyncTargets targets taskManager =
    map (AddTask taskManager) (List.filter (fun t => Target.isAsyncSupported t) targets).
Proof.
  induction targets as [|target rest IH]; simpl; [reflexivity|].
  rewrite IH. destruct (Target.isAsyncSupported target); reflexivity.
Qed.

Lemma buildSyncTargets_filter targets :
  buildSyncTargets targets =
    map AwaitBuild (List.filter (fun t => negb (Target.isAsyncSupported t)) targets).
Proof.
  induction targets as [|target rest IH]; simpl; [reflexivity|].
  rewrite IH. destruct (Target.isAsyncSupported target); reflexivity.
Qed.

Lemma find_sync_none targets :
  List.find (fun it => negb (Target.isAsyncSupported it)) targets = None <->
  forallb Target.isAsyncSupported targets = true.
Proof.
  induction targets as [|target rest IH]; simpl; [tauto|].
  destruct (Target.isAsyncSupported target); simpl; [exact IH|].
  split; discriminate.
Qed.

Lemma filter_all_async targets :
  forallb Target.isAsyncSupported targets = true ->
  List.filter (fun t => Target.isAsyncSupported t) targets = targets.
Proof.
  induction targets as [|target rest IH]; simpl; [reflexivity|].
  destruct (Target.isAsyncSupported target); simpl; [|discriminate].
  intros H. rewrite IH by exact H. reflexivity.
Qed.

(** Running the operations against the task manager.  The builds added to
    a task manager start in order and are registered on it. *)
Lemma run_async_batch builds batch token pending log :
  fold_left (fun state op => Model.runTaskOp builds op state)
    (map (AddTask SubTaskManager) batch)
    {| Model.token := token; Model.pending := pending; Model.log := log;
       Model.thrown := false |}
  = {| Model.token := token; Model.pending := pending ++ batch;
       Model.log := log ++ map Model.BuildStarted batch; Model.thrown := false |}.
Proof.
  revert pending log.
  induction batch as [|target rest IH]; intros pending log; simpl.
  - rewrite !app_nil_r. reflexivity.
  - rewrite IH. rewrite <- !app_assoc. reflexivity.
Qed.

Lemma run_caller_batch builds batch token pending log :
  fold_left (fun state op => Model.runTaskOp builds op state)
    (map (AddTask CallerTaskManager) batch)
    {| Model.token := token; Model.pending := pending; Model.log := log;
       Model.thrown := false |}
  = {| Model.token := token; Model.pending := pending;
       Model.log := log ++ map Model.BuildStarted batch; Model.thrown := false |}.
Proof.
  revert log.
  induction batch as [|target rest IH]; intros log; simpl.
  - rewrite app_nil_r. reflexivity.
  - rewrite IH, <- app_assoc. reflexivity.
Qed.

(** After a throw nothing more is run. *)
Lemma run_thrown builds ops state :
  Model.thrown state = true ->
  fold_left (fun state op => Model.runTaskOp builds op state) ops state = state.
Proof.
  intros Hthrown.
  induction ops as [|op rest IH]; simpl; [reflexivity|].
  assert (Hsame : Model.runTaskOp builds op state = state).
  { destruct op; simpl; rewrite Hthrown; reflexivity. }
  rewrite Hsame. exact IH.
Qed.

(** The builds awaited one after the other run up to the first that
    fails. *)
Lemma run_sync_sequence builds sequence token pending log :
  Model.log
    (fold_left (fun state op => Model.runTaskOp builds op state)
       (map AwaitBuild sequence)
       {| Model.token := token; Model.pending := pending; Model.log := log;
          Model.thrown := false |})
  = log ++ builtInTurn (Model.fails builds) sequence.
Proof.
  revert log.
  induction sequence as [|target rest IH]; intros log; simpl.
  - rewrite app_nil_r. reflexivity.
  - destruct (Model.fails builds target).
    + rewrite run_thrown by reflexivity. reflexivity.
    + rewrite IH, <- app_assoc. reflexivity.
Qed.

(** The events of a run of [packageInDistributableFormat], for every
    behaviour of the builds and of the driver. *)
Lemma runTaskOps_packageInDistributableFormat builds targets :
  let async := List.filter (fun t => Target.isAsyncSupported t) targets in
  let sync := List.filter (fun t => negb (Target.isAsyncSupported t)) targets in
  Model.runTaskOps builds (packageInDistributableFormat targets) =
    (if forallb Target.isAsyncSupported targets
     then map Model.BuildStarted targets
     else if Model.cancelledBefore builds then []
     else map Model.BuildStarted async
          ++ (if Model.cancelledMeanwhile builds
              then builtInTurn (Model.fails builds) sync
              else match List.find (Model.fails builds) async with
                   | Some target => [Model.BuildFailed target]
                   | None =>
                       map Model.BuildFinished async
                       ++ builtInTurn (Model.fails builds) sync
                   end)).
Proof.
  intros async sync.
  unfold Model.runTaskOps, packageInDistributableFormat.
  destruct (List.find _ targets) as [found|] eqn:Hfind.
  - destruct (forallb Target.isAsyncSupported targets) eqn:Hall.
    { apply find_sync_none in Hall. congruence. }
    rewrite buildAsyncTargets_filter, buildSyncTargets_filter.
    fold async sync.
    cbn [fold_left Model.runTaskOp Model.thrown Model.token].
    destruct (Model.cancelledBefore builds); [reflexivity|].
    cbn [fold_left Model.runTaskOp Model.thrown Model.token Model.log Model.pending].
    rewrite fold_left_app, run_async_batch.
    cbn [fold_left Model.runTaskOp Model.thrown Model.token Model.log Model.pending
         orb app].
    destruct (Model.cancelledMeanwhile builds).
    + rewrite run_sync_sequence. reflexivity.
    + destruct (List.find (Model.fails builds) async) as [failed|].
      * rewrite run_thrown by reflexivity. reflexivity.
      * rewrite run_sync_sequence, <- app_assoc. reflexivity.
  - pose proof (proj1 (find_sync_none targets) Hfind) as Hall.
    rewrite Hall, buildAsyncTargets_filter, filter_all_async by exact Hall.
    rewrite run_caller_batch. reflexivity.
Qed.

Lemma builtInTurn_all_succeed fails sequence :
  (forall target, In target sequence -> fails target = false) ->
  builtInTurn fails sequence
  = flat_map (fun target => [Model.BuildStarted target; Model.BuildFinished target])
      sequence.
Proof.
  induction sequence as [|target rest IH]; intros Hsucceed; simpl; [reflexivity|].
  rewrite (Hsucceed target) by (left; reflexivity).
  rewrite IH by (intros t Ht; apply Hsucceed; right; exact Ht).
  reflexivity.
Qed.

Lemma find_none_succeed (fails : Target.t -> bool) (batch : list Target.t) :
  (forall target, In target batch -> fails target = false) ->
  List.find fails batch = None.
Proof.
  induction batch as [|target rest IH]; intros Hsucceed; simpl; [reflexivity|].
  rewrite (Hsucceed target) by (left; reflexivity).
  apply IH. intros t Ht. apply Hsucceed. right. exact Ht.
Qed.



(** ** Artifact names *)

Section ArtifactNames.

Context {collaborators : Collaborators}.

(** C5 as amended: on every platform but macOS the architecture handed to
    the macro expander depends on the extension: for x64 it is [x86_64] for
    AppImage and rpm and [amd64] for deb and snap; for ia32 it is [i386]
    for deb, AppImage and snap and [i686] for pacman and rpm.  On macOS no
    architecture is handed over, whatever the extension. *)
Theorem computeArtifactName_arch_by_extension (p : PlatformPackager)
    (pattern : string) :
  let rendered := fun (ext : string) (arch : Arch) (archName : string) =>
    computeArtifactName p pattern ext (Val arch) =
      expandMacro p pattern
        (if is_MAC (platform p) then Null else Val archName)
        {[ "ext" := ext ]} true in
  rendered "AppImage" x64 "x86_64" /\ rendered "rpm" x64 "x86_64"
  /\ rendered "deb" x64 "amd64" /\ rendered "snap" x64 "amd64"
  /\ rendered "deb" ia32 "i386" /\ rendered "AppImage" ia32 "i386"
  /\ rendered "snap" ia32 "i386"
  /\ rendered "pacman" ia32 "i686" /\ rendered "rpm" ia32 "i686".
Proof.
  intros rendered. unfold rendered, computeArtifactName.
  destruct (is_MAC (platform p)); simpl; repeat split; reflexivity.
Qed.

Lemma safe_char_spec (c : ascii) :
  safe_char c = existsb (Ascii.eqb c) (list_ascii_of_string safeCharacters).
Proof.
  destruct c as [[] [] [] [] [] [] [] []]; vm_compute; reflexivity.
Qed.

Lemma safe_chars_spec (name : string) :
  forallb safe_char (list_ascii_of_string name) = true <-> onlySafeCharacters name.
Proof.
  unfold onlySafeCharacters.
  rewrite forallb_forall, List.Forall_forall.
  split; intros H c Hc; specialize (H c Hc).
  - rewrite safe_char_spec in H. apply existsb_exists in H.
    destruct H as (c' & Hin & Heq). apply Ascii.eqb_eq in Heq. subst c'. exact Hin.
  - rewrite safe_char_spec. apply existsb_exists.
    exists c. split; [exact H | apply Ascii.eqb_refl].
Qed.

Lemma isSafeGithubName_spec (name : string) :
  isSafeGithubName name = true <-> name <> "" /\ onlySafeCharacters name.
Proof.
  destruct name as [|c rest].
  - simpl. split; [discriminate | intros [H _]; congruence].
  - unfold isSafeGithubName. rewrite safe_chars_spec.
    split; [intros H; split; [discriminate | exact H] | intros [_ H]; exact H].
Qed.

(** C6 as amended: [computeSafeArtifactName] returns [null] exactly when
    the suggested name is not null, is not empty, and is made of characters
    of [[0-9A-Za-z._-]] only.  In every other case it returns what
    [computeArtifactName] makes of the safe pattern, with no architecture
    when [skipArchIfX64] holds and the architecture is x64, and with the
    given architecture otherwise. *)
Theorem computeSafeArtifactName_safe_or_fallback (p : PlatformPackager)
    (suggestedName : nullable string) (ext : string) (arch : nullable Arch)
    (skipArchIfX64 : bool) (safePattern : string) :
  let safe :=
    exists suggested,
      suggestedName = Val suggested /\ suggested <> ""
      /\ onlySafeCharacters suggested in
  (computeSafeArtifactName p suggestedName ext arch skipArchIfX64 safePattern
     = Ok Null <-> safe)
  /\ (~ safe ->
      computeSafeArtifactName p suggestedName ext arch skipArchIfX64 safePattern
      = asSafeName
          (computeArtifactName p safePattern ext
             (if skipArchIfX64 && arch_is arch x64 then Null else arch))).
Proof.
  intros safe. unfold safe, computeSafeArtifactName, asSafeName.
  set (fallback := computeArtifactName p safePattern ext _).
  destruct suggestedName as [| |suggested].
  - split; [|reflexivity].
    split; [destruct fallback; discriminate | intros (s & H & _); discriminate].
  - split; [|reflexivity].
    split; [destruct fallback; discriminate | intros (s & H & _); discriminate].
  - destruct (isSafeGithubName suggested) eqn:Hsafe.
    + apply isSafeGithubName_spec in Hsafe.
      assert (exists s, Val suggested = Val s /\ s <> "" /\ onlySafeCharacters s)
        as Hex by (exists suggested; tauto).
      split; [tauto | intros Hn; destruct (Hn Hex)].
    + split; [|reflexivity].
      split; [destruct fallback; discriminate|].
      intros (s & Heq & Hne & Hall). injection Heq as <-.
      assert (isSafeGithubName suggested = true) by (apply isSafeGithubName_spec; tauto).
      congruence.
Qed.

End ArtifactNames.

(** The default pattern on Linux and on macOS, for the sample application
    and the expander of the model. *)
Example artifact_name_deb_linux :
  @computeArtifactName Model.collaborators Sample.linux
    default_artifactNamePattern "deb" (Val x64)
  = Ok "Foo App-1.2.3-amd64.deb".
Proof. vm_compute. reflexivity. Qed.

(** C5, counterexample: built for macOS, the default pattern with x64 and
    the extension [deb] does not render the architecture as [amd64]; the
    architecture is left out. *)
Lemma computeArtifactName_mac_omits_arch :
  @computeArtifactName Model.collaborators Sample.mac
    default_artifactNamePattern "deb" (Val x64)
  = Ok "Foo App-1.2.3.deb"
  /\ @computeArtifactName Model.collaborators Sample.mac
       default_artifactNamePattern "deb" (Val x64)
     <> @expandMacro Model.collaborators Sample.mac
          default_artifactNamePattern (Val "amd64") {[ "ext" := "deb" ]} true.
Proof. split; [vm_compute; reflexivity | vm_compute; discriminate]. Qed.

(** C6, counterexample: the empty name is not null and holds no character
    outside the safe set, and yet the result is not [null] but the name
    computed from the safe pattern. *)
Lemma computeSafeArtifactName_empty_name :
  onlySafeCharacters ""
  /\ @computeSafeArtifactName Model.collaborators Sample.linux (Val "") "deb"
       (Val x64) default_skipArchIfX64 default_safePattern
     = Ok (Val "foo-app-1.2.3.deb")
  /\ @computeSafeArtifactName Model.collaborators Sample.linux (Val "") "deb"
       (Val x64) default_skipArchIfX64 default_safePattern
     <> Ok Null.
Proof.
  split; [constructor|].
  split; [vm_compute; reflexivity | vm_compute; discriminate].
Qed.

(** ** Archive options *)

Section AsarOptions.

Context {path : PathApi} {collaborators : Collaborators}.

(** C8 as amended: for a framework that is not Electron-based
    [computeAsarOptions] returns [null] and looks at no option, deprecated
    or not.  For an Electron-based framework it throws when the
    configuration holds ["asar-unpack"] or ["asar-unpack-dir"]; otherwise it
    takes the platform-specific [asar] value when that is not null and the
    top-level one when it is, and returns [null] when that value is
    [false], an empty object when it is absent or [true], and, when it is
    an object, throws if the object holds [unpackDir] or [unpack] and
    returns [deepAssign({}, object)] if it holds neither. *)
Theorem computeAsarOptions_cases (env : Env) (p : PlatformPackager)
    (customBuildOptions : PlatformSpecificBuildOptions.t) (w : World) :
  let platformSpecific := PlatformSpecificBuildOptions.asar customBuildOptions in
  let result :=
    if eq_null platformSpecific then Configuration.asar (config p)
    else platformSpecific in
  let outcome := fst (computeAsarOptions env p customBuildOptions w) in
  (isElectronBased p = false ->
   computeAsarOptions env p customBuildOptions w = (Ok None, w))
  /\ (isElectronBased p = true ->
      (ne_null (Configuration.asar_unpack (config p)) = true ->
       outcome = Err (DeprecatedOption "asar-unpack"))
      /\ (ne_null (Configuration.asar_unpack (config p)) = false ->
          ne_null (Configuration.asar_unpack_dir (config p)) = true ->
          outcome = Err (DeprecatedOption "asar-unpack-dir"))
      /\ (ne_null (Configuration.asar_unpack (config p)) = false ->
          ne_null (Configuration.asar_unpack_dir (config p)) = false ->
          match result with
          | Val (AsarBool false) => outcome = Ok None
          | Undefined | Null | Val (AsarBool true) => outcome = Ok (Some ∅)
          | Val (AsarObject o) =>
              if ne_null (js_get o "unpackDir")
              then outcome = Err (DeprecatedOption "asar.unpackDir")
              else if ne_null (js_get o "unpack")
              then outcome = Err (DeprecatedOption "asar.unpack")
              else outcome = Ok (Some (deepAssign ∅ o))
          end)).
Proof.
  intros platformSpecific result outcome.
  unfold outcome, computeAsarOptions. fold platformSpecific. fold result.
  split; intros Helectron; rewrite Helectron; simpl; [reflexivity|].
  split; [intros ->; reflexivity|].
  split; [intros -> ->; reflexivity|].
  intros -> ->.
  destruct result as [| |[[|]|o]]; try reflexivity.
  - unfold bind, suspend, emit, ret.
    destruct (statOrNull env _) as [stat|]; [destruct (isFile stat)|]; reflexivity.
  - unfold bind, for_of, throw, ret.
    destruct (ne_null (js_get o "unpackDir")); [reflexivity|].
    destruct (ne_null (js_get o "unpack")); reflexivity.
Qed.

End AsarOptions.

(** The [deepAssign] of the model returns a copy of its source when the
    target is empty. *)
Lemma deepAssign_empty_target (o : JsObject) : Model.deepAssign ∅ o = o.
Proof. unfold Model.deepAssign. apply (right_id_L ∅ (∪)). Qed.

(** C8, counterexample: with a framework that is not Electron-based and a
    configuration that still holds ["asar-unpack"], [computeAsarOptions]
    raises no error: it returns [null] and leaves the world as it was. *)
Lemma computeAsarOptions_deprecated_not_reported :
  let deprecated :=
    {| Configuration.compression := Undefined;
       Configuration.asar := Undefined;
       Configuration.asar_unpack := Val (JStr "**/*.node");
       Configuration.asar_unpack_dir := Undefined;
       Configuration.artifactName := Undefined;
       Configuration.extraMetadata := Undefined;
       Configuration.extraResources := Undefined;
       Configuration.extraFiles := Undefined;
       Configuration.asarUnpack := Undefined |} in
  let protonNative :=
    {| Framework.name := "proton-native";
       Framework.version := "1.0.0";
       Framework.distMacOsAppName := "Proton.app";
       Framework.isElectronBased := false;
       Framework.beforeCopyExtraFiles := false;
       Framework.createTransformer := None |} in
  let p :=
    Sample.packagerOf LINUX
      (Sample.packagerInfo deprecated protonNative Undefined Undefined) in
  ne_null (Configuration.asar_unpack (config p)) = true
  /\ @computeAsarOptions (Posix.api "/") Model.collaborators
       (Model.env [] [] (fun _ => false)) p Sample.options Sample.start
     = (Ok None, Sample.start).
Proof. split; reflexivity. Qed.

(** ** The packaging pipeline *)

(** Rules to follow a run call by call. *)
Lemma wp_ret {A} (a : A) w (Q : Result A -> World -> Prop) :
  Q (Ok a) w -> wp (ret a) w Q.
Proof. exact (fun H => H). Qed.

Lemma wp_lift {A} (r : Result A) w (Q : Result A -> World -> Prop) :
  Q r w -> wp (lift r) w Q.
Proof. exact (fun H => H). Qed.

Lemma wp_emit ev w (Q : Result unit -> World -> Prop) :
  Q (Ok tt) {| cancelled := cancelled w; trace := trace w ++ [ev] |} ->
  wp (emit ev) w Q.
Proof. exact (fun H => H). Qed.

Lemma wp_suspend env s w (Q : Result unit -> World -> Prop) :
  Q (Ok tt) {| cancelled := cancelled w || cancels env s; trace := trace w |} ->
  wp (suspend env s) w Q.
Proof. exact (fun H => H). Qed.

Lemma wp_bind {A B} (c : M A) (f : A -> M B) w (Q : Result B -> World -> Prop) :
  wp c w (fun r w1 =>
            match r with
            | Ok a => wp (f a) w1 Q
            | Err e => Q (Err e) w1
            end) ->
  wp (bind c f) w Q.
Proof.
  unfold wp, bind. destruct (c w) as [[a|e] w1]; simpl; exact (fun H => H).
Qed.

Lemma wp_await env s ev w (Q : Result unit -> World -> Prop) :
  match throws env s with
  | Some e =>
      Q (Err e) {| cancelled := cancelled w || cancels env s; trace := trace w ++ [ev] |}
  | None =>
      Q (Ok tt) {| cancelled := cancelled w || cancels env s; trace := trace w ++ [ev] |}
  end ->
  wp (await env s ev) w Q.
Proof.
  unfold wp, await, bind, emit, suspend, throw, ret. simpl.
  destruct (throws env s); exact (fun H => H).
Qed.

Lemma wp_call {A} env s (value : A) w (Q : Result A -> World -> Prop) :
  match throws env s with
  | Some e => Q (Err e) w
  | None => Q (Ok value) w
  end ->
  wp (call env s value) w Q.
Proof.
  unfold wp, call. destruct (throws env s); exact (fun H => H).
Qed.

Lemma wp_readCancelled w (Q : Result bool -> World -> Prop) :
  Q (Ok (cancelled w))
    {| cancelled := cancelled w;
       trace := trace w ++ [EvReadCancelled (cancelled w)] |} ->
  wp readCancelled w Q.
Proof. exact (fun H => H). Qed.

Lemma eventsOf_wp {A} (c : M A) w (P : list Event -> Prop) :
  wp c w (fun _ w' => exists added, trace w' = trace w ++ added /\ P added) ->
  P (eventsOf c w).
Proof.
  unfold wp, eventsOf. intros (added & -> & H). rewrite drop_app_length. exact H.
Qed.

Lemma run_wp {A} (c : M A) w (P : Result A -> list Event -> Prop) :
  wp c w (fun r w' => exists added, trace w' = trace w ++ added /\ P r added) ->
  P (fst (c w)) (eventsOf c w).
Proof.
  unfold wp, eventsOf. intros (added & -> & H). rewrite drop_app_length. exact H.
Qed.

Lemma world_unchanged w :
  w = {| cancelled := cancelled w || false; trace := trace w ++ asarWarning false |}.
Proof. destruct w; simpl. rewrite orb_false_r, app_nil_r. reflexivity. Qed.

Section Pipeline.

Context {path : PathApi} {collaborators : Collaborators}.

(** [computeAsarOptions] leaves the world as it is but for a warning it may
    log and for the token, which may be set while it waits. *)
Lemma computeAsarOptions_frame env p options w :
  exists r c warned,
    computeAsarOptions env p options w
    = (r, {| cancelled := cancelled w || c; trace := trace w ++ asarWarning warned |}).
Proof.
  assert (Hsame : forall r : Result (option JsObject),
            exists r' c warned,
              (r, w) = (r', {| cancelled := cancelled w || c;
                               trace := trace w ++ asarWarning warned |})).
  { intros r. exists r, false, false. f_equal. apply world_unchanged. }
  unfold computeAsarOptions.
  destruct (negb (isElectronBased p)); [apply Hsame|].
  destruct (ne_null (Configuration.asar_unpack _)); [apply Hsame|].
  destruct (ne_null (Configuration.asar_unpack_dir _)); [apply Hsame|].
  destruct (if eq_null _ then _ else _) as [| |[[|]|object]]; try apply Hsame.
  - cbv [bind suspend emit ret].
    destruct (statOrNull env _) as [stat|]; [destruct (negb (isFile stat))|].
    + eexists _, _, true. reflexivity.
    + eexists _, _, false. simpl. rewrite app_nil_r. reflexivity.
    + eexists _, _, true. reflexivity.
  - cbv [bind for_of throw ret].
    destruct (ne_null (js_get object "unpackDir")); [apply Hsame|].
    destruct (ne_null (js_get object "unpack")); apply Hsame.
Qed.

Lemma wp_computeAsarOptions env p options w
    (Q : Result (option JsObject) -> World -> Prop) :
  (forall r c warned,
     Q r {| cancelled := cancelled w || c; trace := trace w ++ asarWarning warned |}) ->
  wp (computeAsarOptions env p options) w Q.
Proof.
  intros H. unfold wp.
  destruct (computeAsarOptions_frame env p options w) as (r & c & warned & ->).
  apply H.
Qed.

End Pipeline.

(** One step of a run: the rule of the call at hand, and the cases of its
    outcome. *)
Ltac wp_step :=
  lazymatch goal with
  | |- wp (bind _ _) _ _ => apply wp_bind
  | |- wp (ret _) _ _ => apply wp_ret
  | |- wp (lift ?r) _ _ => apply wp_lift; destruct r as [[]|?] eqn:?
  | |- wp (emit _) _ _ => apply wp_emit
  | |- wp (suspend _ _) _ _ => apply wp_suspend
  | |- wp (await ?env ?s _) _ _ => apply wp_await; destruct (throws env s) eqn:?
  | |- wp (call ?env ?s _) _ _ => apply wp_call; destruct (throws env s) eqn:?
  | |- wp readCancelled _ _ => apply wp_readCancelled
  | |- wp (computeAsarOptions _ _ _) _ _ =>
      apply wp_computeAsarOptions; intros [[?|]|?] ? []
  | |- wp (if ?b then _ else _) _ _ => destruct b eqn:?
  | |- wp (match ?x with _ => _ end) _ _ => destruct x eqn:?
  end; cbn [cancelled trace asarWarning].

(** At the end of a run: the calls it added. *)
Ltac trace_leaf :=
  first
    [ exists []; split; [symmetry; apply app_nil_r | cbn]
    | eexists; split; [repeat rewrite <- app_assoc; reflexivity | cbn] ].

Ltac split_false :=
  repeat match goal with
  | E : _ || _ = false |- _ => apply orb_false_iff in E; destruct E
  end.


(** A run that went past a checkpoint did not find the token set. *)
Ltac not_cancelled H :=
  exfalso; split_false;
  repeat match goal with
  | E : ?x = false |- _ => rewrite E in H; clear E
  end;
  discriminate H.

Section PipelineProperties.

Context {path : PathApi} {collaborators : Collaborators}.

(** C9: when the caller supplied a prepackaged directory, [doPack] returns
    at once: the result is a plain return and the world is the one it
    started from, so that no stage is prepared, no matcher is computed, no
    file is copied, no hook is called, nothing is checked and nothing is
    signed. *)
Theorem doPack_prepackaged (env : Env) (p : PlatformPackager)
    (outDir appOutDir platformName : string) (arch : Arch)
    (options : PlatformSpecificBuildOptions.t) (targets : list Target.t)
    (w : World) :
  ne_null (Packager.prepackaged (info p)) = true ->
  doPack env p outDir appOutDir platformName arch options targets w = (Ok tt, w).
Proof.
  intros H. unfold doPack. rewrite H. reflexivity.
Qed.

(** C1 as amended: the token is read at two checkpoints and nowhere else,
    right after the main copy and right after the copy of the extra files.
    A run in which the token is set by the second checkpoint returns
    early: it calls neither the after-pack hook nor the sanity check nor
    [signApp] nor the after-sign hook.  This holds when the token is set
    before the run or while the stage preparation or the main copy is
    awaited, and, after the main copy, while [computeData], the
    before-copy hook of the framework or a copy of extra files is awaited;
    it holds whenever a checkpoint reads the token as set.  A run that
    makes one of the four calls went through both checkpoints, so that a
    token set later stops nothing. *)
Theorem doPack_cancellation_checkpoints (env : Env) (p : PlatformPackager)
    (outDir appOutDir platformName : string) (arch : Arch)
    (options : PlatformSpecificBuildOptions.t) (targets : list Target.t)
    (w : World) :
  let events :=
    eventsOf (doPack env p outDir appOutDir platformName arch options targets) w in
  let framework := Packager.framework (info p) in
  (cancelled w || cancels env SPrepareStage || cancels env SMainCopy
   || (Framework.beforeCopyExtraFiles framework && cancels env SBeforeCopyExtraFiles)
   || cancels env SCopyExtraResources || cancels env SCopyExtraFiles = true ->
   noLateEvent events = true)
  /\ (forall resourcesPath externalAllowed,
        In (EvComputeData resourcesPath externalAllowed) events ->
        cancels env SComputeData = true ->
        noLateEvent events = true)
  /\ (In (EvReadCancelled true) events -> noLateEvent events = true)
  /\ (checkpoints None events = []
      \/ checkpoints None events = [AfterMainCopy]
      \/ checkpoints None events = [AfterMainCopy; AfterExtraFileCopy])
  /\ (noLateEvent events = false ->
      checkpoints None events = [AfterMainCopy; AfterExtraFileCopy]).
Proof.
  intros events framework. unfold events. clear events.
  apply (eventsOf_wp _ _ (fun events =>
    (cancelled w || cancels env SPrepareStage || cancels env SMainCopy
     || (Framework.beforeCopyExtraFiles framework && cancels env SBeforeCopyExtraFiles)
     || cancels env SCopyExtraResources || cancels env SCopyExtraFiles = true ->
     noLateEvent events = true)
    /\ (forall resourcesPath externalAllowed,
          In (EvComputeData resourcesPath externalAllowed) events ->
          cancels env SComputeData = true ->
          noLateEvent events = true)
    /\ (In (EvReadCancelled true) events -> noLateEvent events = true)
    /\ (checkpoints None events = []
        \/ checkpoints None events = [AfterMainCopy]
        \/ checkpoints None events = [AfterMainCopy; AfterExtraFileCopy])
    /\ (noLateEvent events = false ->
        checkpoints None events = [AfterMainCopy; AfterExtraFileCopy]))).
  unfold doPack. fold framework.
  repeat wp_step.
  all: trace_leaf.
  all: split; [intros H; first [reflexivity | not_cancelled H]|].
  all: split;
    [intros resourcesPath externalAllowed HIn H;
     first [reflexivity | not_cancelled H | exfalso; intuition discriminate]|].
  all: split;
    [intros H; first [reflexivity | exfalso; intuition discriminate]|].
  all: split; [tauto|].
  all: intros H; first [discriminate H | reflexivity].
Qed.

End PipelineProperties.

(** C9, witness: a packager that was given a prepackaged directory. *)
Lemma doPack_prepackaged_witness :
  let p :=
    Sample.packagerOf LINUX
      (Sample.packagerInfo Sample.configuration Sample.electron Undefined
         (Val "/project/prepackaged")) in
  ne_null (Packager.prepackaged (info p)) = true
  /\ Sample.run (Model.env [] [] Sample.never) p Sample.start = (Ok tt, Sample.start).
Proof.
  split; [reflexivity|].
  apply (@doPack_prepackaged (Posix.api "/project") Model.collaborators).
  reflexivity.
Defined.

(** A run that nothing stops makes every call of the pipeline, in order. *)
Example doPack_complete_run :
  map eventLabel
    (eventsOf
       (Sample.run (Model.env Sample.packedFiles Sample.packedArchives Sample.never)
          Sample.linux)
       Sample.start)
  = ["log.info"; "prepareApplicationStageDirectory"; "copyAppFiles"; "cancelled";
     "copyFiles"; "copyFiles"; "cancelled"; "afterPack"; "sanityCheckPackage";
     "signApp"; "afterSign"].
Proof. vm_compute. reflexivity. Qed.

(** A run in which the token is set while the main copy is awaited stops at
    the first checkpoint. *)
Example doPack_cancelled_during_main_copy :
  map eventLabel
    (eventsOf
       (Sample.run
          (Model.env Sample.packedFiles Sample.packedArchives Sample.duringMainCopy)
          Sample.linux)
       Sample.start)
  = ["log.info"; "prepareApplicationStageDirectory"; "copyAppFiles"; "cancelled"].
Proof. vm_compute. reflexivity. Qed.

(** C1, counterexample: the token is set while the after-pack hook is
    awaited, that is after the main copy and before the sanity check.  The
    run does not return early: it goes on to the sanity check, to [signApp]
    and to the after-sign hook, and ends with the token set. *)
Lemma doPack_cancelled_during_afterPack :
  let env := Model.env Sample.packedFiles Sample.packedArchives Sample.duringAfterPack in
  let run := Sample.run env Sample.linux in
  cancels env SAfterPack = true
  /\ cancels env SMainCopy = false
  /\ cancelled (snd (run Sample.start)) = true
  /\ fst (run Sample.start) = Ok tt
  /\ map eventLabel (eventsOf run Sample.start)
     = ["log.info"; "prepareApplicationStageDirectory"; "copyAppFiles"; "cancelled";
        "copyFiles"; "copyFiles"; "cancelled"; "afterPack"; "sanityCheckPackage";
        "signApp"; "afterSign"]
  /\ noLateEvent (eventsOf run Sample.start) = false.
Proof. vm_compute. repeat split; reflexivity. Qed.

(** ** The sanity check *)

Section SanityCheck.

Context {path : PathApi} {collaborators : Collaborators}.






End SanityCheck.

(** A package that passes the check, and one whose entry file is missing
    from the archive. *)
Example sanityCheckPackage_archived :
  @sanityCheckPackage (Posix.api "/project")
    (Model.env Sample.packedFiles Sample.packedArchives Sample.never)
    Sample.linux Sample.appOutDir true = Ok tt
  /\ @sanityCheckPackage (Posix.api "/project")
       (Model.env Sample.packedFiles
          [("/project/dist/linux-unpacked/resources/app.asar", ["package.json"])]
          Sample.never)
       Sample.linux Sample.appOutDir true
     = Err (FileMissing "Application entry file" "index.js").
Proof. split; vm_compute; reflexivity. Qed.

(** The inner path of an entry file that lies in a directory of the nested
    archive: the archive holds [lib/main.js], the check asks it for
    [.main.js]. *)
Example sanityCheckPackage_nested_directory :
  @sanityCheckPackage (Posix.api "/project")
    (Model.env Sample.handPackedFiles Sample.handPackedArchives Sample.never)
    (Sample.handPacked "a.asar/lib/main.js") Sample.appOutDir false
  = Err (FileMissing "Application entry file" ".main.js").
Proof. vm_compute. reflexivity. Qed.


(** ** Exclusion patterns and the main copy *)

Section MainCopy.

Context {path : PathApi} {collaborators : Collaborators}.

Lemma computeParsedPatterns_of_flat_map (p : PlatformPackager)
    (matchers : option (list FileMatcher.t)) (excludePatterns : list Minimatch) :
  computeParsedPatterns_of p matchers excludePatterns
  = excludePatterns
    ++ flat_map (fun matcher => computeParsedPatterns matcher (projectDir p))
         (matchersOf matchers).
Proof.
  destruct matchers as [matchers|]; simpl; [|rewrite app_nil_r; reflexivity].
  revert excludePatterns.
  induction matchers as [|matcher rest IH]; intros excludePatterns; simpl.
  - rewrite app_nil_r. reflexivity.
  - rewrite IH, <- app_assoc. reflexivity.
Qed.

Lemma copyAppFiles_matchers (p : PlatformPackager) (asarOptions : option JsObject)
    (resourcePath defaultDestination : string) (packContext : AfterPackContext)
    (options : PlatformSpecificBuildOptions.t) (excludePatterns : list Minimatch)
    (macroExpander : string -> Result string) :
  Packager.isPrepackedAppAsar (info p) = false ->
  let isElectronCompile :=
    bool_decide (asarOptions <> None) && Packager.isElectronCompileUsed (info p) in
  let mainMatchers :=
    getMainFileMatchers (Packager.appDir (info p)) defaultDestination
      macroExpander options p (ctx_outDir packContext) isElectronCompile in
  plan_matchers
    (taskFileSets
       (copyAppFiles p asarOptions resourcePath defaultDestination packContext
          options excludePatterns macroExpander))
  = match excludePatterns with
    | [] => mainMatchers
    | _ :: _ => map (set_excludePatterns excludePatterns) mainMatchers
    end.
Proof.
  intros Hplain isElectronCompile mainMatchers.
  unfold copyAppFiles. rewrite Hplain.
  fold isElectronCompile. fold mainMatchers.
  destruct asarOptions; destruct excludePatterns; reflexivity.
Qed.

(** C4 as amended: after the stage preparation [doPack] computes the
    extra-resource matchers and then the extra-file matchers and collects
    the parsed patterns of both, in that order, in one list of exclusions.
    The list is not installed on the extra matchers: [copyFiles] receives
    them as [getFileMatchers] returned them.  It is handed to
    [copyAppFiles], which, unless the application is a prepackaged archive,
    installs it on every main matcher before the copy task is built
    whenever it is not empty, and leaves the main matchers as they are when
    it is empty. *)
Theorem doPack_exclusions_for_main_copy (env : Env) (p : PlatformPackager)
    (outDir appOutDir platformName : string) (arch : Arch)
    (options : PlatformSpecificBuildOptions.t) (targets : list Target.t)
    (w : World) :
  let events :=
    eventsOf (doPack env p outDir appOutDir platformName arch options targets) w in
  let macroExpander := fun it : string =>
    expandMacro p it (Val (Arch_name arch)) {[ "/*" := "{,/**/*}" ]} true in
  let getFileMatchersOptions :=
    {| macroExpander := macroExpander;
       customBuildOptions := options;
       outDir := outDir |} in
  let extraResourceMatchers :=
    getExtraFileMatchers p true appOutDir getFileMatchersOptions in
  let extraFileMatchers :=
    getExtraFileMatchers p false appOutDir getFileMatchersOptions in
  let excludePatterns :=
    flat_map (fun matcher => computeParsedPatterns matcher (projectDir p))
      (matchersOf extraResourceMatchers ++ matchersOf extraFileMatchers) in
  let packContext :=
    {| ctx_appOutDir := appOutDir; ctx_outDir := outDir; ctx_arch := arch;
       ctx_targets := targets; ctx_electronPlatformName := platformName |} in
  (copiedMatchers events = []
   \/ copiedMatchers events = [extraResourceMatchers]
   \/ copiedMatchers events = [extraResourceMatchers; extraFileMatchers])
  /\ (forall task,
        In (EvMainCopy task) events ->
        (exists stage rest,
           events = EvLogInfo "packaging" :: stage :: rest
           /\ eventLabel stage = "prepareApplicationStageDirectory"
           /\ In (EvMainCopy task) rest)
        /\ exists asarOptions resourcesPath,
             task = copyAppFiles p asarOptions resourcesPath
                      (path_join [resourcesPath; "app"]) packContext options
                      excludePatterns macroExpander)
  /\ (forall asarOptions resourcesPath,
        Packager.isPrepackedAppAsar (info p) = false ->
        let mainMatchers :=
          getMainFileMatchers (Packager.appDir (info p))
            (path_join [resourcesPath; "app"]) macroExpander options p outDir
            (bool_decide (asarOptions <> None)
             && Packager.isElectronCompileUsed (info p)) in
        plan_matchers
          (taskFileSets
             (copyAppFiles p asarOptions resourcesPath
                (path_join [resourcesPath; "app"]) packContext options
                excludePatterns macroExpander))
        = match excludePatterns with
          | [] => mainMatchers
          | _ :: _ => map (set_excludePatterns excludePatterns) mainMatchers
          end).
Proof.
  intros events macroExpander getFileMatchersOptions extraResourceMatchers
    extraFileMatchers excludePatterns packContext.
  assert (Hcollected :
    computeParsedPatterns_of p extraFileMatchers
      (computeParsedPatterns_of p extraResourceMatchers [])
    = excludePatterns).
  { rewrite !computeParsedPatterns_of_flat_map. unfold excludePatterns.
    rewrite flat_map_app. reflexivity. }
  split; [|split].
  - unfold events.
    apply (eventsOf_wp _ _ (fun events =>
      copiedMatchers events = []
      \/ copiedMatchers events = [extraResourceMatchers]
      \/ copiedMatchers events = [extraResourceMatchers; extraFileMatchers])).
    unfold doPack. repeat wp_step. all: trace_leaf. all: tauto.
  - unfold events.
    apply (eventsOf_wp _ _ (fun events =>
      forall task,
        In (EvMainCopy task) events ->
        (exists stage rest,
           events = EvLogInfo "packaging" :: stage :: rest
           /\ eventLabel stage = "prepareApplicationStageDirectory"
           /\ In (EvMainCopy task) rest)
        /\ exists asarOptions resourcesPath,
             task = copyAppFiles p asarOptions resourcesPath
                      (path_join [resourcesPath; "app"]) packContext options
                      excludePatterns macroExpander)).
    unfold doPack. repeat wp_step. all: trace_leaf.
    all: intros task HIn.
    all: repeat (destruct HIn as [HIn|HIn]; [try discriminate HIn|]).
    all: lazymatch type of HIn with
         | False => destruct HIn
         | _ => injection HIn as <-
         end.
    all: split;
      [ eexists _, _; split; [reflexivity|]; split; [reflexivity|];
        simpl; auto 20
      | rewrite <- Hcollected; eexists _, _; reflexivity ].
  - intros asarOptions resourcesPath Hplain.
    apply (copyAppFiles_matchers p asarOptions resourcesPath
             (path_join [resourcesPath; "app"]) packContext options
             excludePatterns macroExpander Hplain).
Qed.

End MainCopy.

(** C4, counterexample: [shared.txt] is configured as an extra resource and
    as an extra file, on a framework whose resources directory is the
    output directory.  Both copies receive a matcher without exclusions,
    and both matchers produce the same destination path; only the main
    matcher carries the exclusions. *)
Lemma doPack_extra_matchers_share_destination :
  let env := Model.env Sample.unpackedFiles [] Sample.never in
  let run := Sample.run env Sample.withSharedExtras in
  let shared :=
    {| FileMatcher.from := "/project";
       FileMatcher.to := "/project/dist/linux-unpacked";
       FileMatcher.patterns := ["shared.txt"];
       FileMatcher.excludePatterns := Null |} in
  fst (run Sample.start) = Ok tt
  /\ copiedMatchers (eventsOf run Sample.start) = [Some [shared]; Some [shared]]
  /\ Model.destinations Sample.projectFiles (Some [shared])
     = ["/project/dist/linux-unpacked/shared.txt"]
  /\ mainCopyExclusions (eventsOf run Sample.start)
     = [Val [{| pattern := "shared.txt" |}; {| pattern := "shared.txt" |}]].
Proof. vm_compute. repeat split; reflexivity. Qed.

(** ** The combined transformer *)

Section CombinedTransformer.

Context {path : PathApi} {collaborators : Collaborators}.

(** C7: with no archive options and an application that is not a
    prepackaged archive, [copyAppFiles] copies every file set of the main
    matchers with one transformer.  That transformer returns what the
    transformer for extra files returns whenever this is not null; on every
    file for which it returns null, and on every file when there is no
    transformer for extra files, it returns what the main transformer
    returns. *)
Theorem copyAppFiles_without_archive (p : PlatformPackager)
    (resourcePath defaultDestination : string) (packContext : AfterPackContext)
    (options : PlatformSpecificBuildOptions.t) (excludePatterns : list Minimatch)
    (macroExpander : string -> Result string) :
  Packager.isPrepackedAppAsar (info p) = false ->
  let transformer :=
    createTransformer (Packager.appDir (info p)) (config p)
      (PlainMetadata (Configuration.extraMetadata (config p)))
      (Framework.createTransformer (Packager.framework (info p))) in
  let transformerForExtraFiles := createTransformerForExtraFiles p packContext in
  let mainMatchers :=
    getMainFileMatchers (Packager.appDir (info p)) defaultDestination
      macroExpander options p (ctx_outDir packContext) false in
  exists fileSets combined,
    copyAppFiles p None resourcePath defaultDestination packContext options
      excludePatterns macroExpander
    = CopyEach fileSets combined
    /\ plan_matchers fileSets
       = match excludePatterns with
         | [] => mainMatchers
         | _ :: _ => map (set_excludePatterns excludePatterns) mainMatchers
         end
    /\ (forall extra file result,
          transformerForExtraFiles = Some extra -> extra file = Some result ->
          combined file = Some result)
    /\ (forall extra file,
          transformerForExtraFiles = Some extra -> extra file = None ->
          combined file = transformer file)
    /\ (transformerForExtraFiles = None ->
        forall file, combined file = transformer file).
Proof.
  intros Hplain transformer transformerForExtraFiles mainMatchers.
  unfold copyAppFiles. rewrite Hplain. simpl.
  fold transformer. fold transformerForExtraFiles. fold mainMatchers.
  eexists _, _. split; [reflexivity|]. simpl.
  split; [destruct excludePatterns; reflexivity|].
  unfold combinedTransformer.
  split; [intros extra file result -> ->; reflexivity|].
  split; [intros extra file -> ->; reflexivity|].
  intros -> file. reflexivity.
Qed.

End CombinedTransformer.

(** What the copy writes with the combined transformer of the sample
    packager for Windows: an executable is signed, any other file is
    copied as it is. *)
Example combinedTransformer_written :
  let raw := fun file : string => "raw " +:+ file in
  let combined :=
    combinedTransformer (Some Sample.signExecutables) (fun _ => None) in
  Model.written raw combined "app.exe" = "signed"
  /\ Model.written raw combined "index.js" = "raw index.js".
Proof. split; reflexivity. Qed.

(** C7, witness: a packager that signs executables while it copies. *)
Lemma copyAppFiles_without_archive_witness :
  Packager.isPrepackedAppAsar (info Sample.windows) = false
  /\ exists fileSets combined,
       @copyAppFiles Model.collaborators Sample.windows None
         "/project/dist/win-unpacked/resources"
         "/project/dist/win-unpacked/resources/app" Sample.packContext
         Sample.options [] (fun it => Ok it)
       = CopyEach fileSets combined
       /\ combined "app.exe" = Some "signed"
       /\ combined "index.js" = None.
Proof.
  split; [reflexivity|].
  destruct (@copyAppFiles_without_archive Model.collaborators Sample.windows
              "/project/dist/win-unpacked/resources"
              "/project/dist/win-unpacked/resources/app" Sample.packContext
              Sample.options [] (fun it => Ok it) eq_refl)
    as (fileSets & combined & Htask & _ & Hextra & Hmain & _).
  exists fileSets, combined.
  split; [exact Htask|].
  split.
  - apply (Hextra Sample.signExecutables); reflexivity.
  - rewrite (Hmain Sample.signExecutables); reflexivity.
Defined.

(** ** Checks of the models *)

(** Node's [path] on the paths the examples use. *)
Example posix_join_examples :
  Posix.join ["/out"; "resources"; "app"; "a.asar/index.js"]
  = "/out/resources/app/a.asar/index.js"
  /\ Posix.join [] = "."
  /\ Posix.join [""; "index.js"] = "index.js"
  /\ Posix.join ["."; "index.js"] = "index.js"
  /\ Posix.join ["a"; "../../b"] = "../b"
  /\ Posix.normalize "/a/b/../../../c/" = "/c/".
Proof. repeat split; reflexivity. Qed.

Example posix_resolve_relative_examples :
  Posix.resolve "/cwd" ["/app"; "./src/../main.js"] = "/app/main.js"
  /\ Posix.resolve "/cwd" ["lib"; "x.js"] = "/cwd/lib/x.js"
  /\ Posix.relative "/cwd" "/app" "/app/a.asar/index.js" = "a.asar/index.js"
  /\ Posix.relative "/cwd" "/app/x" "/app/y/z" = "../y/z"
  /\ Posix.relative "/cwd" "/app" "/app" = "".
Proof. repeat split; reflexivity. Qed.

Example posix_parse_examples :
  Posix.parse "a.asar/index.js" = {| dir := "a.asar"; base := "index.js" |}
  /\ Posix.parse "index.js" = {| dir := ""; base := "index.js" |}
  /\ Posix.parse "/x.js" = {| dir := "/"; base := "x.js" |}
  /\ Posix.parse "/a/x.js" = {| dir := "/a"; base := "x.js" |}
  /\ Posix.parse "a//x/" = {| dir := "a/"; base := "x" |}
  /\ Posix.parse "path/arch.asar/dir/index.js"
     = {| dir := "path/arch.asar/dir"; base := "index.js" |}.
Proof. repeat split; reflexivity. Qed.

Example string_examples :
  split "/"%char "path/arch.asar/dir" = ["path"; "arch.asar"; "dir"]
  /\ split "/"%char "" = [""]
  /\ includes "path/arch.asar/dir" ".asar" = true
  /\ includes "path/dir" ".asar" = false
  /\ endsWith "arch.asar" ".asar" = true
  /\ endsWith "asar" ".asar" = false
  /\ some_asar_index ["path"; "arch.asar"; "dir"] 0 0 = 1
  /\ some_asar_index ["my.asar.d"; "dir"] 0 0 = 1.
Proof. repeat split; reflexivity. Qed.

(** The expander of the model on the patterns of the class. *)
Example expandMacro_examples :
  Model.expandMacro default_artifactNamePattern (Val "x64") Sample.fooApp
    {[ "ext" := "zip" ]} true
  = Ok "Foo App-1.2.3-x64.zip"
  /\ Model.expandMacro default_safePattern Null Sample.fooApp
       {[ "ext" := "zip" ]} true
     = Ok "foo-app-1.2.3.zip"
  /\ Model.expandMacro "${productName}-${channel}.${ext}" Null Sample.fooApp
       {[ "ext" := "zip" ]} true
     = Err (UnknownMacro "channel").
Proof. repeat split; vm_compute; reflexivity. Qed.

(** With [skipArchIfX64], the default for x64, no architecture reaches the
    expander, whatever the extension. *)
Lemma expandArtifactNamePattern_skips_x64 {collaborators : Collaborators}
    (p : PlatformPackager) (targetSpecificOptions : nullable TargetSpecificOptions.t)
    (ext : string) (defaultPattern : nullable string) :
  exists pattern,
    expandArtifactNamePattern p targetSpecificOptions ext (Val x64) defaultPattern
      default_skipArchIfX64
    = expandMacro p pattern Null {[ "ext" := ext ]} true.
Proof.
  unfold expandArtifactNamePattern, computeArtifactName. simpl.
  eexists. destruct (is_MAC (platform p)); reflexivity.
Qed.

(** The schedule of a batch with two targets that are not concurrency-safe. *)
Example packageInDistributableFormat_mixed :
  packageInDistributableFormat
    [Sample.snap; Sample.deb; Sample.remote; Sample.appImage]
  = [Add CallerTaskManager
       [NewTaskManager cancellationToken;
        AddTask SubTaskManager Sample.deb;
        AddTask SubTaskManager Sample.appImage;
        AwaitTasks SubTaskManager;
        AwaitBuild Sample.snap;
        AwaitBuild Sample.remote]]
  /\ packageInDistributableFormat [Sample.deb; Sample.appImage]
     = [AddTask CallerTaskManager Sample.deb;
        AddTask CallerTaskManager Sample.appImage]
  /\ packageInDistributableFormat [] = [].
Proof. repeat split; reflexivity. Qed.

(** The matcher of the model leaves out what its exclusions match. *)
Example matcherResults_excludes :
  Model.matcherResults Sample.projectFiles
    (set_excludePatterns [{| pattern := "shared.txt" |}]
       {| FileMatcher.from := "/project"; FileMatcher.to := "/out";
          FileMatcher.patterns := ["**/*"]; FileMatcher.excludePatterns := Null |})
  = [("/project/README.md", "/out/README.md")].
Proof. reflexivity. Qed.

(** * Further properties *)

(** ** Code signing options *)

(** X1: [chooseNotNull] returns its first argument unless that is [null] or
    [undefined]; nested calls pick the first value that is not null,
    whichever way they are nested, and the result is null only when both
    arguments are. *)
Theorem chooseNotNull_first_value {A : Type} (v1 v2 v3 : nullable A) :
  chooseNotNull (chooseNotNull v1 v2) v3 = chooseNotNull v1 (chooseNotNull v2 v3)
  /\ eq_null (chooseNotNull v1 v2) = eq_null v1 && eq_null v2
  /\ (ne_null v1 = true -> chooseNotNull v1 v2 = v1)
  /\ (eq_null v1 = true -> chooseNotNull v1 v2 = v2).
Proof.
  unfold chooseNotNull.
  destruct v1, v2; simpl; repeat split; try reflexivity; try discriminate.
Qed.

(** The first value of a list that is not null, [undefined] when there is
    none. *)
Lemma find_not_null_cons {A : Type} (v : nullable A) (rest : list (nullable A)) :
  List.find ne_null (v :: rest)
  = if eq_null v then List.find ne_null rest else Some v.
Proof. destruct v; reflexivity. Qed.

Section Signing.

Context {path : PathApi} {collaborators : Collaborators} {util : BuilderUtil}.

(** X2: the certificate link is the first value that is not null among
    the top-level option, the platform-specific option, the variable
    named by [extraEnvName] (skipped when no name is given) and the
    variable [CSC_LINK], in this order, and [undefined] when there is none;
    the password is resolved the same way from the two options and
    [CSC_KEY_PASSWORD].  An option set to the empty string is a value: it
    hides the environment. *)
Theorem getCscLink_precedence (x : Settings) (extraEnvName : nullable string) :
  let named :=
    match extraEnvName with
    | Val extraEnvName => env_get (processEnv x) extraEnvName
    | _ => Null
    end in
  getCscLink x extraEnvName
  = default Undefined
      (List.find ne_null
         [CommonOptions.cscLink (configOptions x);
          CommonOptions.cscLink (platformOptions x);
          named;
          env_get (processEnv x) "CSC_LINK"])
  /\ doGetCscPassword x
     = default Undefined
         (List.find ne_null
            [CommonOptions.cscKeyPassword (configOptions x);
             CommonOptions.cscKeyPassword (platformOptions x);
             env_get (processEnv x) "CSC_KEY_PASSWORD"])
  /\ (CommonOptions.cscLink (configOptions x) = Val "" ->
      getCscLink x extraEnvName = Val "").
Proof.
  intros named. unfold getCscLink, doGetCscPassword, chooseNotNull. fold named.
  split; [|split].
  - rewrite !find_not_null_cons.
    destruct (CommonOptions.cscLink (configOptions x));
      destruct (CommonOptions.cscLink (platformOptions x));
      destruct named; simpl; try reflexivity;
      unfold env_get; destruct (processEnv x !! "CSC_LINK"); reflexivity.
  - rewrite !find_not_null_cons.
    destruct (CommonOptions.cscKeyPassword (configOptions x));
      destruct (CommonOptions.cscKeyPassword (platformOptions x));
      simpl; try reflexivity;
      unfold env_get; destruct (processEnv x !! "CSC_KEY_PASSWORD"); reflexivity.
  - intros ->. reflexivity.
Qed.

(** X3: code signing is forced as the platform-specific option says
    whenever that is set, [false] included; as the top-level option says
    when the platform-specific one is null or undefined; and not at all
    when neither is set. *)
Theorem forceCodeSigning_resolution (x : Settings) :
  forceCodeSigning x
  = match CommonOptions.forceCodeSigning (platformOptions x) with
    | Val forced => forced
    | _ =>
        match CommonOptions.forceCodeSigning (configOptions x) with
        | Val forced => forced
        | _ => false
        end
    end.
Proof.
  unfold forceCodeSigning, js_or.
  destruct (CommonOptions.forceCodeSigning (platformOptions x)) as [| |[|]];
    simpl; try reflexivity;
    destruct (CommonOptions.forceCodeSigning (configOptions x)) as [| |[|]];
    reflexivity.
Qed.

End Signing.

(** ** File extensions *)

Lemma substring_all (s : string) : String.substring 0 (String.length s) s = s.
Proof. induction s as [|c s IH]; simpl; [reflexivity | rewrite IH; reflexivity]. Qed.

Lemma startsWith_empty (s : string) : startsWith s "" = true.
Proof. destruct s; reflexivity. Qed.

Lemma startsWith_cons (c d : ascii) (s q : string) :
  startsWith (String c s) (String d q)
  = if Ascii.ascii_dec d c then startsWith s q else false.
Proof. reflexivity. Qed.

Lemma normalizeExt_dot (ext : string) : normalizeExt (String "."%char ext) = ext.
Proof.
  unfold normalizeExt. rewrite startsWith_cons, startsWith_empty.
  destruct (Ascii.ascii_dec "."%char "."%char) as [_|Hne]; [|congruence].
  cbn [String.length String.substring Nat.sub]. rewrite Nat.sub_0_r.
  apply substring_all.
Qed.

Lemma normalizeExt_no_dot (ext : string) :
  startsWith ext "." = false -> normalizeExt ext = ext.
Proof. unfold normalizeExt. intros ->. reflexivity. Qed.

(** X4: [normalizeExt] removes one leading dot and no more: an extension
    written with a dot loses it, one written without is returned as it is,
    and the result still starts with a dot exactly when the extension
    started with two, so that applying it again changes the result exactly
    in that case. *)
Theorem normalizeExt_one_dot (ext : string) :
  normalizeExt ("." +:+ ext) = ext
  /\ (startsWith ext "." = false -> normalizeExt ext = ext)
  /\ startsWith (normalizeExt ext) "." = startsWith ext ".."
  /\ (normalizeExt (normalizeExt ext) = normalizeExt ext <->
      startsWith ext ".." = false).
Proof.
  split; [apply normalizeExt_dot|].
  split; [apply normalizeExt_no_dot|].
  assert (Hstart : startsWith (normalizeExt ext) "." = startsWith ext "..").
  { destruct ext as [|c rest]; [reflexivity|].
    rewrite (startsWith_cons c "."%char rest ".").
    destruct (Ascii.ascii_dec "."%char c) as [<-|Hc].
    - rewrite normalizeExt_dot. reflexivity.
    - rewrite normalizeExt_no_dot.
      + rewrite startsWith_cons.
        destruct (Ascii.ascii_dec "."%char c); [congruence | reflexivity].
      + rewrite startsWith_cons.
        destruct (Ascii.ascii_dec "."%char c); [congruence | reflexivity]. }
  split; [exact Hstart|].
  rewrite <- Hstart.
  destruct (startsWith (normalizeExt ext) ".") eqn:Hdot.
  - split; [|discriminate].
    intros Hsame. exfalso.
    destruct (normalizeExt ext) as [|c rest] eqn:Hn; [discriminate|].
    rewrite startsWith_cons in Hdot.
    destruct (Ascii.ascii_dec "."%char c) as [<-|_]; [|discriminate].
    rewrite normalizeExt_dot in Hsame.
    assert (Hlen : String.length rest = String.length (String "."%char rest))
      by (rewrite Hsame at 1; reflexivity).
    simpl in Hlen. lia.
  - split; [reflexivity|]. intros _. apply normalizeExt_no_dot. exact Hdot.
Qed.

(** ** Build resources *)

Lemma find_first {A : Type} (f : A -> bool) (before after : list A) (a : A) :
  forallb (fun b => negb (f b)) before = true -> f a = true ->
  List.find f (before ++ a :: after) = Some a.
Proof.
  intros Hbefore Ha. induction before as [|b before IH]; simpl.
  - rewrite Ha. reflexivity.
  - simpl in Hbefore. apply andb_prop in Hbefore as [Hb Hrest].
    apply negb_true_iff in Hb. rewrite Hb. apply IH. exact Hrest.
Qed.

Lemma find_none {A : Type} (f : A -> bool) (l : list A) :
  forallb (fun b => negb (f b)) l = true -> List.find f l = None.
Proof.
  induction l as [|b l IH]; simpl; [reflexivity|].
  intros H. apply andb_prop in H as [Hb Hrest].
  apply negb_true_iff in Hb. rewrite Hb. apply IH. exact Hrest.
Qed.

Section Resources.

Context {path : PathApi} {collaborators : Collaborators} {util : BuilderUtil}.

(** X5: [getResource] with a custom name that is [null] or blank returns
    [null] and does not look at the default names.  With no custom name
    ([undefined]) it returns the path, in the build resources, of the first
    default name that the directory lists, in the order of the names, and
    [null] when it lists none.  With a custom name that is not blank the
    order is fixed: a name the directory lists gives its path in the build
    resources, whatever the file system holds; a name that is not listed
    and exists relative to the build resources gives that path, whether or
    not it exists relative to the project as well; the path relative to
    the project is returned only when the one relative to the build
    resources does not exist.  It throws exactly when the name is not
    blank, not listed, and exists at neither place. *)
Theorem getResource_outcomes (env : Env) (x : Settings) (custom : nullable string)
    (names : list string) :
  let resourcesDir := buildResourcesDir x in
  let result := getResource env x custom names in
  (custom = Null -> result = Ok Null)
  /\ (forall name, custom = Val name -> isEmptyOrSpaces name = true ->
      result = Ok Null)
  /\ (forall before name after,
        custom = Undefined -> names = before ++ name :: after ->
        forallb (fun earlier => negb (listed x earlier)) before = true ->
        listed x name = true ->
        result = Ok (Val (path_join [resourcesDir; name])))
  /\ (custom = Undefined ->
      forallb (fun name => negb (listed x name)) names = true ->
      result = Ok Null)
  /\ (forall name p,
        custom = Val name -> result = Ok (Val p) ->
        (listed x name = true /\ p = path_join [resourcesDir; name])
        \/ (is_Some (statOrNull env p)
            /\ (p = path_resolve [resourcesDir; name]
                \/ p = path_resolve [projectDir (packager x); name])))
  /\ (forall name,
        custom = Val name -> isEmptyOrSpaces name = false ->
        listed x name = true ->
        result = Ok (Val (path_join [resourcesDir; name])))
  /\ (forall name,
        custom = Val name -> isEmptyOrSpaces name = false ->
        listed x name = false ->
        is_Some (statOrNull env (path_resolve [resourcesDir; name])) ->
        result = Ok (Val (path_resolve [resourcesDir; name])))
  /\ (forall name,
        custom = Val name -> isEmptyOrSpaces name = false ->
        listed x name = false ->
        statOrNull env (path_resolve [resourcesDir; name]) = None ->
        is_Some (statOrNull env (path_resolve [projectDir (packager x); name])) ->
        result = Ok (Val (path_resolve [projectDir (packager x); name])))
  /\ (forall e,
        result = Err e <->
        exists name,
          custom = Val name /\ isEmptyOrSpaces name = false
          /\ listed x name = false
          /\ statOrNull env (path_resolve [resourcesDir; name]) = None
          /\ statOrNull env (path_resolve [projectDir (packager x); name]) = None
          /\ e = Thrown "cannot find specified resource").
Proof.
  intros resourcesDir result. unfold result, getResource. fold resourcesDir.
  split; [intros ->; reflexivity|].
  split; [intros name -> ->; reflexivity|].
  split.
  { intros before name after -> -> Hbefore Hlisted.
    rewrite (find_first _ before after name Hbefore Hlisted). reflexivity. }
  split; [intros -> Hnone; rewrite (find_none _ names Hnone); reflexivity|].
  split.
  { intros name p -> H.
    destruct (isEmptyOrSpaces name); [discriminate|].
    destruct (listed x name); [injection H as <-; left; split; reflexivity|].
    destruct (statOrNull env (path_resolve [resourcesDir; name])) as [stat|] eqn:H1.
    - injection H as <-. right. split; [rewrite H1; eexists; reflexivity | left; reflexivity].
    - destruct (statOrNull env (path_resolve [projectDir (packager x); name]))
        as [stat|] eqn:H2; [|discriminate].
      injection H as <-. right.
      split; [rewrite H2; eexists; reflexivity | right; reflexivity]. }
  split; [intros name -> -> ->; reflexivity|].
  split; [intros name -> -> -> [stat ->]; reflexivity|].
  split; [intros name -> -> -> -> [stat ->]; reflexivity|].
  intros e. split.
  - destruct custom as [| |name]; try discriminate.
    { destruct (List.find (listed x) names); discriminate. }
    destruct (isEmptyOrSpaces name) eqn:Hblank; [discriminate|].
    destruct (listed x name) eqn:Hlisted; [discriminate|].
    destruct (statOrNull env (path_resolve [resourcesDir; name])) eqn:H1; [discriminate|].
    destruct (statOrNull env (path_resolve [projectDir (packager x); name])) eqn:H2;
      [discriminate|].
    intros [= <-]. exists name. repeat split; assumption.
  - intros (name & -> & -> & -> & -> & -> & ->). reflexivity.
Qed.

End Resources.

(** The icon of the sample build resources, and a resource that exists
    nowhere. *)
Example getResource_examples :
  let env := Model.env [("/project/assets/logo.png", Model.aFile)] [] Sample.never in
  let getResource :=
    @getResource (Posix.api "/project") Model.builderUtil env Sample.settings in
  getResource Undefined ["icon.icns"; "icon.ico"; "icon.png"]
  = Ok (Val "/project/build/icon.ico")
  /\ getResource Null ["icon.ico"] = Ok Null
  /\ getResource (Val "  ") ["icon.ico"] = Ok Null
  /\ getResource (Val "assets/logo.png") [] = Ok (Val "/project/assets/logo.png")
  /\ getResource (Val "missing.png") ["icon.ico"]
     = Err (Thrown "cannot find specified resource").
Proof. repeat split; vm_compute; reflexivity. Qed.

(** ** Artifact names, continued *)

Section ArtifactNamePatterns.

Context {collaborators : Collaborators}.

(** X6: the pattern [expandArtifactNamePattern] expands is the
    target-specific one whenever that is not null, the empty pattern
    included; otherwise it is the first pattern that is neither null nor
    empty among the platform-specific one, the top-level one and the
    default the caller gives, and the built-in default when there is none.
    The architecture is dropped when [skipArchIfX64] holds and the
    architecture is x64. *)
Theorem expandArtifactNamePattern_precedence (p : PlatformPackager)
    (targetSpecificOptions : nullable TargetSpecificOptions.t) (ext : string)
    (arch : nullable Arch) (defaultPattern : nullable string)
    (skipArchIfX64 : bool) :
  let expanded := fun pattern =>
    computeArtifactName p pattern ext
      (if skipArchIfX64 && arch_is arch x64 then Null else arch) in
  let inherited :=
    match List.find nonEmpty
            [PlatformSpecificBuildOptions.artifactName (platformSpecificBuildOptions p);
             Configuration.artifactName (config p);
             defaultPattern] with
    | Some (Val pattern) => pattern
    | _ => default_artifactNamePattern
    end in
  (forall options pattern,
     targetSpecificOptions = Val options ->
     TargetSpecificOptions.artifactName options = Val pattern ->
     expandArtifactNamePattern p targetSpecificOptions ext arch defaultPattern
       skipArchIfX64
     = expanded pattern)
  /\ (eq_null targetSpecificOptions = true ->
      expandArtifactNamePattern p targetSpecificOptions ext arch defaultPattern
        skipArchIfX64
      = expanded inherited)
  /\ (forall options,
        targetSpecificOptions = Val options ->
        eq_null (TargetSpecificOptions.artifactName options) = true ->
        expandArtifactNamePattern p targetSpecificOptions ext arch defaultPattern
          skipArchIfX64
        = expanded inherited).
Proof.
  intros expanded inherited.
  assert (Hinherited :
    js_or truthy_string
      (PlatformSpecificBuildOptions.artifactName (platformSpecificBuildOptions p))
      (js_or truthy_string (Configuration.artifactName (config p))
         (js_or truthy_string defaultPattern default_artifactNamePattern))
    = inherited).
  { unfold inherited, js_or, nonEmpty. simpl.
    destruct (PlatformSpecificBuildOptions.artifactName _) as [| |[|c1 s1]];
      destruct (Configuration.artifactName _) as [| |[|c2 s2]];
      destruct defaultPattern as [| |[|c3 s3]]; reflexivity. }
  unfold expandArtifactNamePattern, expanded.
  split; [intros options pattern -> ->; reflexivity|].
  split.
  - intros Hnull. destruct targetSpecificOptions; try discriminate;
      rewrite Hinherited; reflexivity.
  - intros options -> Hnull.
    destruct (TargetSpecificOptions.artifactName options); try discriminate;
      rewrite Hinherited; reflexivity.
Qed.

(** X7: [computeArtifactName] renames x64 and ia32 only, and only for the
    extensions of its table: armv7l and arm64 keep their name for every
    extension, x64 and ia32 keep theirs for every extension the table does
    not list, and with no architecture none is handed to the expander.  On
    macOS no architecture is handed over in any of these cases. *)
Theorem computeArtifactName_unlisted (p : PlatformPackager) (pattern ext : string) :
  let named := fun (arch : nullable Arch) (archName : nullable string) =>
    computeArtifactName p pattern ext arch
    = expandMacro p pattern (if is_MAC (platform p) then Null else archName)
        {[ "ext" := ext ]} true in
  named (Val armv7l) (Val "armv7l")
  /\ named (Val arm64) (Val "arm64")
  /\ named Null Null
  /\ named Undefined Null
  /\ (~ In ext ["AppImage"; "rpm"; "deb"; "snap"] -> named (Val x64) (Val "x64"))
  /\ (~ In ext ["deb"; "AppImage"; "snap"; "pacman"; "rpm"] ->
      named (Val ia32) (Val "ia32")).
Proof.
  intros named. unfold named, computeArtifactName.
  repeat split; try reflexivity.
  - intros Hext. simpl in Hext.
    assert (H1 : String.eqb ext "AppImage" = false) by (apply String.eqb_neq; intuition).
    assert (H2 : String.eqb ext "rpm" = false) by (apply String.eqb_neq; intuition).
    assert (H3 : String.eqb ext "deb" = false) by (apply String.eqb_neq; intuition).
    assert (H4 : String.eqb ext "snap" = false) by (apply String.eqb_neq; intuition).
    simpl. rewrite H1, H2, H3, H4. reflexivity.
  - intros Hext. simpl in Hext.
    assert (H1 : String.eqb ext "AppImage" = false) by (apply String.eqb_neq; intuition).
    assert (H2 : String.eqb ext "rpm" = false) by (apply String.eqb_neq; intuition).
    assert (H3 : String.eqb ext "deb" = false) by (apply String.eqb_neq; intuition).
    assert (H4 : String.eqb ext "snap" = false) by (apply String.eqb_neq; intuition).
    assert (H5 : String.eqb ext "pacman" = false) by (apply String.eqb_neq; intuition).
    simpl. rewrite H1, H2, H3, H4, H5. reflexivity.
Qed.

End ArtifactNamePatterns.

(** An empty target-specific pattern is expanded as it is; an empty
    platform-specific pattern gives way to the built-in default. *)
Example expandArtifactNamePattern_empty_patterns :
  @expandArtifactNamePattern Model.collaborators Sample.linux
    (Val {| TargetSpecificOptions.artifactName := Val "" |}) "zip" (Val x64)
    Undefined true
  = Ok ""
  /\ @expandArtifactNamePattern Model.collaborators Sample.linux
       (Val {| TargetSpecificOptions.artifactName := Undefined |}) "zip" (Val arm64)
       (Val "") true
     = Ok "Foo App-1.2.3-arm64.zip".
Proof. split; vm_compute; reflexivity. Qed.

(** ** The pipeline, continued *)

Section PipelineOrder.

Context {path : PathApi} {collaborators : Collaborators}.

(** X8: the calls of a run of [doPack] are always made in the same order:
    the names of the calls of any run, stopped early or not, are the
    beginning of the names of the complete pipeline, in which the warning
    of [computeAsarOptions], [computeData] and the before-copy hook are the
    only calls that may be missing. *)
Theorem doPack_call_order (env : Env) (p : PlatformPackager)
    (outDir appOutDir platformName : string) (arch : Arch)
    (options : PlatformSpecificBuildOptions.t) (targets : list Target.t)
    (w : World) :
  exists warned integrity rest,
    pipelineLabels warned
      (Framework.beforeCopyExtraFiles (Packager.framework (info p))) integrity
    = map eventLabel
        (eventsOf (doPack env p outDir appOutDir platformName arch options targets) w)
      ++ rest.
Proof.
  apply (eventsOf_wp _ _ (fun events =>
    exists warned integrity rest,
      pipelineLabels warned
        (Framework.beforeCopyExtraFiles (Packager.framework (info p))) integrity
      = map eventLabel events ++ rest)).
  unfold doPack.
  repeat wp_step.
  all: trace_leaf.
  all: first
    [ exists false, false; eexists; reflexivity
    | exists true, false; eexists; reflexivity
    | exists false, true; eexists; reflexivity
    | exists true, true; eexists; reflexivity ].
Qed.

(** X9: a run of [doPack] returns normally in three ways only: at once,
    with no call made, when a prepackaged directory was given; right after
    a checkpoint that read the token as set; or after the after-sign hook,
    the last call of the pipeline. *)
Theorem doPack_normal_endings (env : Env) (p : PlatformPackager)
    (outDir appOutDir platformName : string) (arch : Arch)
    (options : PlatformSpecificBuildOptions.t) (targets : list Target.t)
    (w : World) :
  let run := doPack env p outDir appOutDir platformName arch options targets in
  fst (run w) = Ok tt ->
  (ne_null (Packager.prepackaged (info p)) = true /\ eventsOf run w = [])
  \/ last (eventsOf run w) = Some (EvReadCancelled true)
  \/ exists packContext, last (eventsOf run w) = Some (EvAfterSign packContext).
Proof.
  intros run. unfold run. clear run.
  apply (run_wp _ _ (fun r events =>
    r = Ok tt ->
    (ne_null (Packager.prepackaged (info p)) = true /\ events = [])
    \/ last events = Some (EvReadCancelled true)
    \/ exists packContext, last events = Some (EvAfterSign packContext))).
  unfold doPack.
  repeat wp_step.
  all: trace_leaf.
  all: intros Hok; try discriminate Hok.
  all: first
    [ left; split; reflexivity
    | right; left; reflexivity
    | right; right; eexists; reflexivity ].
Qed.

End PipelineOrder.

(** X9, witness: the complete run of the sample build. *)
Lemma doPack_normal_endings_witness :
  let run :=
    Sample.run (Model.env Sample.packedFiles Sample.packedArchives Sample.never)
      Sample.linux in
  fst (run Sample.start) = Ok tt
  /\ ((ne_null (Packager.prepackaged (info Sample.linux)) = true
       /\ eventsOf run Sample.start = [])
      \/ last (eventsOf run Sample.start) = Some (EvReadCancelled true)
      \/ exists packContext,
           last (eventsOf run Sample.start) = Some (EvAfterSign packContext)).
Proof.
  split; [vm_compute; reflexivity|].
  apply (@doPack_normal_endings (Posix.api "/project") Model.collaborators).
  vm_compute. reflexivity.
Defined.

Section AsarOptionsEffects.

Context {path : PathApi} {collaborators : Collaborators}.

(** What [computeAsarOptions] does to the world, with what its result
    tells: the token can only be set while it waits for the file system,
    and it returns options only for an Electron-based framework. *)
Lemma computeAsarOptions_effects env p options w :
  exists r c warned,
    computeAsarOptions env p options w
    = (r, {| cancelled := cancelled w || c; trace := trace w ++ asarWarning warned |})
    /\ (c = true -> cancels env SComputeAsarOptions = true)
    /\ (forall asarOptions, r = Ok (Some asarOptions) -> isElectronBased p = true)
    /\ r = fst (computeAsarOptions env p options w).
Proof.
  destruct (computeAsarOptions env p options w) as [r0 w0] eqn:Hrun.
  cut (exists r c warned,
         (r0, w0)
         = (r, {| cancelled := cancelled w || c; trace := trace w ++ asarWarning warned |})
         /\ (c = true -> cancels env SComputeAsarOptions = true)
         /\ (forall asarOptions, r = Ok (Some asarOptions) -> isElectronBased p = true)).
  { intros (r & c & warned & Heq & Hc & Hr). exists r, c, warned.
    repeat split; try assumption. simpl. congruence. }
  rewrite <- Hrun. clear Hrun r0 w0.
  assert (Hsame : forall r : Result (option JsObject),
            (forall asarOptions, r = Ok (Some asarOptions) -> isElectronBased p = true) ->
            exists r' c warned,
              (r, w) = (r', {| cancelled := cancelled w || c;
                               trace := trace w ++ asarWarning warned |})
              /\ (c = true -> cancels env SComputeAsarOptions = true)
              /\ (forall asarOptions,
                    r' = Ok (Some asarOptions) -> isElectronBased p = true)).
  { intros r Hr. exists r, false, false.
    split; [f_equal; apply world_unchanged|]. split; [discriminate | exact Hr]. }
  unfold computeAsarOptions.
  destruct (isElectronBased p) eqn:Helectron; simpl;
    [|apply Hsame; discriminate].
  destruct (ne_null (Configuration.asar_unpack _)); [apply Hsame; discriminate|].
  destruct (ne_null (Configuration.asar_unpack_dir _)); [apply Hsame; discriminate|].
  destruct (if eq_null _ then _ else _) as [| |[[|]|object]];
    try (apply Hsame; reflexivity).
  - cbv [bind suspend emit ret].
    destruct (statOrNull env _) as [stat|]; [destruct (negb (isFile stat))|].
    + eexists _, _, true. split; [reflexivity|]. split; [tauto | discriminate].
    + eexists _, _, false. simpl. rewrite app_nil_r.
      split; [reflexivity|]. split; [tauto | discriminate].
    + eexists _, _, true. split; [reflexivity|]. split; [tauto | discriminate].
  - cbv [bind for_of throw ret].
    destruct (ne_null (js_get object "unpackDir")); [apply Hsame; discriminate|].
    destruct (ne_null (js_get object "unpack")); apply Hsame;
      [discriminate | reflexivity].
Qed.

Lemma wp_computeAsarOptions_effects env p options w
    (Q : Result (option JsObject) -> World -> Prop) :
  (forall r c warned,
     (c = true -> cancels env SComputeAsarOptions = true) ->
     (forall asarOptions, r = Ok (Some asarOptions) -> isElectronBased p = true) ->
     r = fst (computeAsarOptions env p options w) ->
     Q r {| cancelled := cancelled w || c; trace := trace w ++ asarWarning warned |}) ->
  wp (computeAsarOptions env p options) w Q.
Proof.
  intros H. unfold wp.
  destruct (computeAsarOptions_effects env p options w)
    as (r & c & warned & Heq & Hc & Hr & Hfst).
  rewrite Heq. simpl. apply H; assumption.
Qed.

End AsarOptionsEffects.

(** One step of a run, keeping what [computeAsarOptions] tells. *)
Ltac wp_step_effects :=
  lazymatch goal with
  | |- wp (bind _ _) _ _ => apply wp_bind
  | |- wp (ret _) _ _ => apply wp_ret
  | |- wp (lift ?r) _ _ => apply wp_lift; destruct r as [[]|?] eqn:?
  | |- wp (emit _) _ _ => apply wp_emit
  | |- wp (suspend _ _) _ _ => apply wp_suspend
  | |- wp (await ?env ?s _) _ _ => apply wp_await; destruct (throws env s) eqn:?
  | |- wp (call ?env ?s _) _ _ => apply wp_call; destruct (throws env s) eqn:?
  | |- wp readCancelled _ _ => apply wp_readCancelled
  | |- wp (computeAsarOptions _ _ _) _ _ =>
      let c := fresh "c" in
      let Hwaited := fresh "Hwaited" in
      let Helectron := fresh "Helectron" in
      let Hresult := fresh "Hresult" in
      apply wp_computeAsarOptions_effects;
      intros [[?|]|?] c [] Hwaited Helectron Hresult
  | |- wp (if ?b then _ else _) _ _ => destruct b eqn:?
  | |- wp (match ?x with _ => _ end) _ _ => destruct x eqn:?
  end; cbn [cancelled trace asarWarning].

Section PipelineRuns.

Context {path : PathApi} {collaborators : Collaborators}.

(** X10: when no prepackaged directory was given, the asar options are
    accepted, no call throws, awaited or not (the computation of the
    matchers and the part of [copyAppFiles] that is not awaited included),
    the token is not set before or during the run and the package passes
    the sanity check the run makes, [doPack] returns normally after the
    whole pipeline: its calls are those of the complete pipeline, ending
    with the after-sign hook. *)
Theorem doPack_complete (env : Env) (p : PlatformPackager)
    (outDir appOutDir platformName : string) (arch : Arch)
    (options : PlatformSpecificBuildOptions.t) (targets : list Target.t)
    (w : World) :
  let run := doPack env p outDir appOutDir platformName arch options targets in
  ne_null (Packager.prepackaged (info p)) = false ->
  asarOptionsAccepted env p options ->
  undisturbed env ->
  cancelled w = false ->
  (forall isAsar,
     In (EvSanityCheck appOutDir isAsar) (eventsOf run w) ->
     sanityCheckPackage env p appOutDir isAsar = Ok tt) ->
  fst (run w) = Ok tt
  /\ (exists warned integrity,
        map eventLabel (eventsOf run w)
        = pipelineLabels warned
            (Framework.beforeCopyExtraFiles (Packager.framework (info p))) integrity)
  /\ exists packContext, last (eventsOf run w) = Some (EvAfterSign packContext).
Proof.
  intros run Hplain Haccepted [Hthrows Hcancels] Htoken. unfold run. clear run.
  apply (run_wp _ _ (fun r events =>
    (forall isAsar,
       In (EvSanityCheck appOutDir isAsar) events ->
       sanityCheckPackage env p appOutDir isAsar = Ok tt) ->
    r = Ok tt
    /\ (exists warned integrity,
          map eventLabel events
          = pipelineLabels warned
              (Framework.beforeCopyExtraFiles (Packager.framework (info p))) integrity)
    /\ exists packContext, last events = Some (EvAfterSign packContext))).
  unfold doPack. rewrite Hplain.
  repeat wp_step_effects.
  all: try match goal with
       | H : throws _ ?s = Some _ |- _ =>
           exfalso; rewrite (Hthrows s) in H; discriminate H
       end.
  all: try match goal with
       | H : _ || _ = true |- _ =>
           exfalso; rewrite ?Hcancels, ?Htoken in H;
           repeat match goal with
           | Hwaited : ?c = true -> cancels _ _ = true |- _ =>
               destruct c;
               [specialize (Hwaited eq_refl); rewrite Hcancels in Hwaited;
                discriminate Hwaited | clear Hwaited]
           end;
           discriminate H
       end.
  all: try match goal with
       | H : Err ?e = fst (computeAsarOptions _ _ _ ?w') |- _ =>
           exfalso; exact (Haccepted w' e (eq_sym H))
       end.
  all: trace_leaf.
  all: intros Hchecked.
  all: try match goal with
       | H : sanityCheckPackage _ _ _ ?isAsar = Err _ |- _ =>
           exfalso;
           assert (sanityCheckPackage env p appOutDir isAsar = Ok tt)
             by (apply Hchecked; simpl; auto 20);
           congruence
       end.
  all: split; [reflexivity|].
  all: split; [|eexists; reflexivity].
  all: first
    [ exists false, false; reflexivity
    | exists true, false; reflexivity
    | exists false, true; reflexivity
    | exists true, true; reflexivity ].
Qed.

End PipelineRuns.

(** X10, witness: the sample build for Linux runs the complete pipeline. *)
Lemma doPack_complete_witness :
  let env := Model.env Sample.packedFiles Sample.packedArchives Sample.never in
  let run := Sample.run env Sample.linux in
  fst (run Sample.start) = Ok tt
  /\ (exists warned integrity,
        map eventLabel (eventsOf run Sample.start)
        = pipelineLabels warned
            (Framework.beforeCopyExtraFiles (Packager.framework (info Sample.linux)))
            integrity)
  /\ exists packContext,
       last (eventsOf run Sample.start) = Some (EvAfterSign packContext).
Proof.
  apply (@doPack_complete (Posix.api "/project") Model.collaborators).
  - vm_compute. reflexivity.
  - intros w error. vm_compute. discriminate.
  - split; intros s; reflexivity.
  - reflexivity.
  - intros isAsar HIn. vm_compute in HIn.
    repeat (destruct HIn as [HIn|HIn]; try discriminate HIn; try contradiction).
    injection HIn as <-. vm_compute. reflexivity.
Defined.

(** Which of the calls a given one is, among the calls of a run. *)
Ltac call_cases HIn :=
  repeat (destruct HIn as [HIn|HIn]; [try discriminate HIn|]);
  try (exfalso; exact HIn).

Section PipelineHooks.

Context {path : PathApi} {collaborators : Collaborators}.

(** X11: the before-copy hook of the framework is called with the output
    directory, and it is handed integrity data exactly when [computeData]
    was called in this run.  [computeData] is called only for a framework
    that has the hook and is Electron-based, and the hook is the next call
    after it: when [computeData] is the last call of a run, it threw. *)
Theorem doPack_before_copy_hook (env : Env) (p : PlatformPackager)
    (outDir appOutDir platformName : string) (arch : Arch)
    (options : PlatformSpecificBuildOptions.t) (targets : list Target.t)
    (w : World) :
  let run := doPack env p outDir appOutDir platformName arch options targets in
  let hook := Framework.beforeCopyExtraFiles (Packager.framework (info p)) in
  (forall directory withIntegrity,
     In (EvBeforeCopyExtraFiles directory withIntegrity) (eventsOf run w) ->
     hook = true /\ directory = appOutDir
     /\ withIntegrity = existsb isComputeData (eventsOf run w))
  /\ (forall resourcesPath externalAllowed,
        In (EvComputeData resourcesPath externalAllowed) (eventsOf run w) ->
        hook = true /\ isElectronBased p = true
        /\ (existsb isBeforeCopyExtraFiles (eventsOf run w) = true
            \/ (last (eventsOf run w)
                = Some (EvComputeData resourcesPath externalAllowed)
                /\ exists error, fst (run w) = Err error))).
Proof.
  intros run hook. unfold run, hook. clear run hook.
  apply (run_wp _ _ (fun r events =>
    (forall directory withIntegrity,
       In (EvBeforeCopyExtraFiles directory withIntegrity) events ->
       Framework.beforeCopyExtraFiles (Packager.framework (info p)) = true
       /\ directory = appOutDir
       /\ withIntegrity = existsb isComputeData events)
    /\ (forall resourcesPath externalAllowed,
          In (EvComputeData resourcesPath externalAllowed) events ->
          Framework.beforeCopyExtraFiles (Packager.framework (info p)) = true
          /\ isElectronBased p = true
          /\ (existsb isBeforeCopyExtraFiles events = true
              \/ (last events = Some (EvComputeData resourcesPath externalAllowed)
                  /\ exists error, r = Err error))))).
  unfold doPack.
  repeat wp_step_effects.
  all: trace_leaf.
  all: split;
    [ intros directory withIntegrity HIn | intros resourcesPath externalAllowed HIn ].
  all: call_cases HIn.
  all: try (injection HIn as <- <-).
  all: try (split; [reflexivity|split; reflexivity]).
  all: split; [reflexivity|].
  all: split; [eapply Helectron; reflexivity|].
  all: first [left; reflexivity | right; split; [reflexivity | eexists; reflexivity]].
Qed.

End PipelineHooks.

Section PipelineConsistency.

Context {path : PathApi} {collaborators : Collaborators}.

(** X12: the sanity check of a run looks at what the main copy of the same
    run produced: it is made on the output directory, it is told that the
    application is archived exactly when the main copy was handed asar
    options, and on every platform but macOS the resources directory it
    looks in, [getResourcesDir], is the one the main copy wrote to.  On
    macOS the main copy writes below the application bundle of the
    framework, [distMacOsAppName]. *)
Theorem doPack_checks_the_main_copy (env : Env) (p : PlatformPackager)
    (outDir appOutDir platformName : string) (arch : Arch)
    (options : PlatformSpecificBuildOptions.t) (targets : list Target.t)
    (w : World) (directory : string) (isAsar : bool) :
  let run := doPack env p outDir appOutDir platformName arch options targets in
  In (EvSanityCheck directory isAsar) (eventsOf run w) ->
  directory = appOutDir
  /\ exists asarOptions resourcesPath packContext excludePatterns macroExpander,
       In (EvMainCopy
             (copyAppFiles p asarOptions resourcesPath
                (path_join [resourcesPath; "app"]) packContext options
                excludePatterns macroExpander))
          (eventsOf run w)
       /\ isAsar = bool_decide (asarOptions <> None)
       /\ resourcesPath
          = (if is_MAC (platform p)
             then path_join [appOutDir;
                             Framework.distMacOsAppName (Packager.framework (info p));
                             "Contents"; "Resources"]
             else getResourcesDir p appOutDir).
Proof.
  intros run. unfold run. clear run.
  apply (eventsOf_wp _ _ (fun events =>
    In (EvSanityCheck directory isAsar) events ->
    directory = appOutDir
    /\ exists asarOptions resourcesPath packContext excludePatterns macroExpander,
         In (EvMainCopy
               (copyAppFiles p asarOptions resourcesPath
                  (path_join [resourcesPath; "app"]) packContext options
                  excludePatterns macroExpander))
            events
         /\ isAsar = bool_decide (asarOptions <> None)
         /\ resourcesPath
            = (if is_MAC (platform p)
               then path_join [appOutDir;
                               Framework.distMacOsAppName (Packager.framework (info p));
                               "Contents"; "Resources"]
               else getResourcesDir p appOutDir))).
  unfold doPack, getResourcesDir.
  repeat wp_step.
  all: trace_leaf.
  all: intros HIn.
  all: call_cases HIn.
  all: injection HIn as <- <-.
  all: split; [reflexivity|].
  all: eexists _, _, _, _, _.
  all: split; [simpl; auto 20|].
  all: split; [reflexivity|].
  all: destruct (is_MAC (platform p)); reflexivity.
Qed.

End PipelineConsistency.

(** X12, witness: the sample build for Linux checks [resources], where its
    main copy packed the archive. *)
Lemma doPack_checks_the_main_copy_witness :
  let run :=
    Sample.run (Model.env Sample.packedFiles Sample.packedArchives Sample.never)
      Sample.linux in
  In (EvSanityCheck Sample.appOutDir true) (eventsOf run Sample.start)
  /\ exists (asarOptions : option JsObject) (resourcesPath : string),
       true = bool_decide (asarOptions <> None)
       /\ resourcesPath = "/project/dist/linux-unpacked/resources".
Proof.
  assert (HIn : In (EvSanityCheck Sample.appOutDir true)
                  (eventsOf
                     (Sample.run
                        (Model.env Sample.packedFiles Sample.packedArchives Sample.never)
                        Sample.linux)
                     Sample.start)).
  { vm_compute. auto 20. }
  split; [exact HIn|].
  destruct (@doPack_checks_the_main_copy (Posix.api "/project") Model.collaborators
              _ _ _ _ _ _ _ _ _ _ _ HIn)
    as (_ & asarOptions & resourcesPath & _ & _ & _ & _ & Harchived & Hpath).
  exists asarOptions, resourcesPath. split; [exact Harchived|].
  rewrite Hpath. vm_compute. reflexivity.
Defined.

Section Pack.

Context {path : PathApi} {collaborators : Collaborators} {util : BuilderUtil}.

(** X13: with a prepackaged directory [pack] makes no call of the pipeline
    and schedules the builds of the targets at once.  They are built from
    the prepackaged directory when its name is not empty; for the empty
    name [doPack] is skipped all the same, and the targets are built from
    the output directory that was not packed. *)
Theorem pack_prepackaged (env : Env) (p : PlatformPackager) (outDir : string)
    (arch : Arch) (targets : list Target.t) (w : World) (directory : string) :
  Packager.prepackaged (info p) = Val directory ->
  pack env p outDir arch targets w
  = (Ok (if truthy_string directory then directory
         else path_join
                [outDir;
                 buildConfigurationKey (platform p) +:+ getArchSuffix arch
                 +:+ (if is_MAC (platform p) then "" else "-unpacked")],
         packageInDistributableFormat targets),
     w).
Proof.
  intros Hprepackaged.
  unfold pack, doPack, computeAppOutDir. rewrite Hprepackaged. reflexivity.
Qed.

End Pack.

(** X13, witness: the targets of a prepackaged application are built from
    the directory given. *)
Lemma pack_prepackaged_witness :
  let prepackaged :=
    Sample.packagerOf LINUX
      (Sample.packagerInfo Sample.configuration Sample.electron Undefined
         (Val "/project/prebuilt")) in
  @pack (Posix.api "/project") Model.collaborators Model.builderUtil
    (Model.env [] [] Sample.never) prepackaged Sample.outDir x64 [Sample.deb]
    Sample.start
  = (Ok ("/project/prebuilt", [AddTask CallerTaskManager Sample.deb]), Sample.start).
Proof.
  intros prepackaged.
  apply (@pack_prepackaged (Posix.api "/project") Model.collaborators
           Model.builderUtil (Model.env [] [] Sample.never) prepackaged
           Sample.outDir x64 [Sample.deb] Sample.start "/project/prebuilt").
  reflexivity.
Defined.

(** The result of a run, the token it leaves and the calls it made. *)
Lemma run_wp_token {A} (c : M A) w (P : Result A -> bool -> list Event -> Prop) :
  wp c w (fun r w' => exists added, trace w' = trace w ++ added
                                    /\ P r (cancelled w') added) ->
  P (fst (c w)) (cancelled (snd (c w))) (eventsOf c w).
Proof.
  unfold wp, eventsOf. intros (added & -> & H). rewrite drop_app_length. exact H.
Qed.

Section PackCancelled.

Context {path : PathApi} {collaborators : Collaborators} {util : BuilderUtil}.

(** X14: cancellation stops the pipeline, and [pack] does not read the
    token itself.  When the token is set from the start and nothing
    throws, [doPack] stops at its first checkpoint, after the main copy,
    and [pack] still calls [packageInDistributableFormat], with the token
    set.  Its operations then meet task managers whose token is set: the
    added function is not started, so that no build is started when a
    target does not support concurrency; when all targets do,
    [packageInDistributableFormat] itself has called the [build] of each,
    as the argument of [addTask]. *)
Theorem pack_cancelled (env : Env) (p : PlatformPackager) (outDir : string)
    (arch : Arch) (targets : list Target.t) (w : World) :
  let run := pack env p outDir arch targets in
  ne_null (Packager.prepackaged (info p)) = false ->
  asarOptionsAccepted env p (platformSpecificBuildOptions p) ->
  (forall s, throws env s = None) ->
  cancelled w = true ->
  fst (run w)
  = Ok (computeAppOutDir p outDir arch, packageInDistributableFormat targets)
  /\ (exists warned,
        map eventLabel (eventsOf run w)
        = ["log.info"; "prepareApplicationStageDirectory"]
          ++ (if warned : bool then ["log.warn"] else [])
          ++ ["copyAppFiles"; "cancelled"])
  /\ forall builds,
       Model.cancelledBefore builds = cancelled (snd (run w)) ->
       Model.runTaskOps builds (packageInDistributableFormat targets)
       = (if forallb Target.isAsyncSupported targets
          then map Model.BuildStarted targets else []).
Proof.
  intros run Hplain Haccepted Hthrows Htoken. unfold run. clear run.
  apply (run_wp_token _ _ (fun r token events =>
    r = Ok (computeAppOutDir p outDir arch, packageInDistributableFormat targets)
    /\ (exists warned,
          map eventLabel events
          = ["log.info"; "prepareApplicationStageDirectory"]
            ++ (if warned : bool then ["log.warn"] else [])
            ++ ["copyAppFiles"; "cancelled"])
    /\ forall builds,
         Model.cancelledBefore builds = token ->
         Model.runTaskOps builds (packageInDistributableFormat targets)
         = (if forallb Target.isAsyncSupported targets
            then map Model.BuildStarted targets else []))).
  unfold pack, doPack. rewrite Hplain.
  repeat wp_step_effects.
  all: try match goal with
       | H : throws _ ?s = Some _ |- _ =>
           exfalso; rewrite (Hthrows s) in H; discriminate H
       end.
  all: try match goal with
       | H : Err ?e = fst (computeAsarOptions _ _ _ ?w') |- _ =>
           exfalso; exact (Haccepted w' e (eq_sym H))
       end.
  all: try match goal with
       | H : _ || _ = false |- _ =>
           exfalso; rewrite Htoken in H; discriminate H
       end.
  all: trace_leaf.
  all: split; [reflexivity|].
  all: split; [first [exists false; reflexivity | exists true; reflexivity]|].
  all: intros builds Hbefore.
  all: rewrite ?Htoken in Hbefore; cbn [orb] in Hbefore.
  all: rewrite runTaskOps_packageInDistributableFormat, Hbefore; reflexivity.
Qed.

End PackCancelled.

(** X14, witness: the sample build, cancelled before it starts, with one
    target that does not support concurrency. *)
Lemma pack_cancelled_witness :
  let run :=
    @pack (Posix.api "/project") Model.collaborators Model.builderUtil
      (Model.env Sample.packedFiles Sample.packedArchives Sample.never)
      Sample.linux Sample.outDir x64 [Sample.deb; Sample.snap] in
  let w := {| cancelled := true; trace := [] |} in
  fst (run w)
  = Ok ("/project/dist/linux-unpacked",
        packageInDistributableFormat [Sample.deb; Sample.snap])
  /\ (exists warned,
        map eventLabel (eventsOf run w)
        = ["log.info"; "prepareApplicationStageDirectory"]
          ++ (if warned : bool then ["log.warn"] else [])
          ++ ["copyAppFiles"; "cancelled"])
  /\ forall builds,
       Model.cancelledBefore builds = cancelled (snd (run w)) ->
       Model.runTaskOps builds (packageInDistributableFormat [Sample.deb; Sample.snap])
       = [].
Proof.
  apply (@pack_cancelled (Posix.api "/project") Model.collaborators Model.builderUtil
           (Model.env Sample.packedFiles Sample.packedArchives Sample.never)
           Sample.linux Sample.outDir x64 [Sample.deb; Sample.snap]
           {| cancelled := true; trace := [] |}).
  - reflexivity.
  - intros w error. vm_compute. discriminate.
  - intros s. reflexivity.
  - reflexivity.
Defined.

(** ** Scheduling, continued *)

Lemma startedTargets_started targets :
  Model.startedTargets (map Model.BuildStarted targets) = targets.
Proof. induction targets as [|t rest IH]; simpl; [|rewrite IH]; reflexivity. Qed.

Lemma startedTargets_finished targets :
  Model.startedTargets (map Model.BuildFinished targets) = [].
Proof. induction targets as [|t rest IH]; simpl; [|rewrite IH]; reflexivity. Qed.

Lemma finishedTargets_started targets :
  Model.finishedTargets (map Model.BuildStarted targets) = [].
Proof. induction targets as [|t rest IH]; simpl; [|rewrite IH]; reflexivity. Qed.

Lemma finishedTargets_finished targets :
  Model.finishedTargets (map Model.BuildFinished targets) = targets.
Proof. induction targets as [|t rest IH]; simpl; [|rewrite IH]; reflexivity. Qed.

Lemma startedTargets_app log1 log2 :
  Model.startedTargets (log1 ++ log2)
  = Model.startedTargets log1 ++ Model.startedTargets log2.
Proof. apply flat_map_app. Qed.

Lemma finishedTargets_app log1 log2 :
  Model.finishedTargets (log1 ++ log2)
  = Model.finishedTargets log1 ++ Model.finishedTargets log2.
Proof. apply flat_map_app. Qed.

(** The builds made in turn are the first targets of the sequence, and
    those that finished are among them. *)
Lemma startedTargets_in_turn fails sequence :
  Model.startedTargets (builtInTurn fails sequence) ⊆+ sequence.
Proof.
  induction sequence as [|target rest IH]; simpl; [reflexivity|].
  destruct (fails target); simpl.
  - apply submseteq_skip, submseteq_nil_l.
  - apply submseteq_skip, IH.
Qed.

Lemma finishedTargets_in_turn fails sequence :
  Model.finishedTargets (builtInTurn fails sequence)
  ⊆+ Model.startedTargets (builtInTurn fails sequence).
Proof.
  induction sequence as [|target rest IH]; simpl; [reflexivity|].
  destruct (fails target); simpl.
  - apply submseteq_nil_l.
  - apply submseteq_skip, IH.
Qed.

Lemma startedTargets_sequence targets :
  Model.startedTargets
    (flat_map (fun target => [Model.BuildStarted target; Model.BuildFinished target])
       targets)
  = targets.
Proof. induction targets as [|t rest IH]; simpl; [|rewrite IH]; reflexivity. Qed.

Lemma finishedTargets_sequence targets :
  Model.finishedTargets
    (flat_map (fun target => [Model.BuildStarted target; Model.BuildFinished target])
       targets)
  = targets.
Proof. induction targets as [|t rest IH]; simpl; [|rewrite IH]; reflexivity. Qed.

(** The targets that support concurrency and the others are all the
    targets. *)
Lemma async_sync_all (targets : list Target.t) :
  List.filter (fun t => Target.isAsyncSupported t) targets
  ++ List.filter (fun t => negb (Target.isAsyncSupported t)) targets
  ≡ₚ targets.
Proof.
  induction targets as [|target rest IH]; simpl; [reflexivity|].
  destruct (Target.isAsyncSupported target); simpl.
  - rewrite IH. reflexivity.
  - rewrite <- Permutation_middle, IH. reflexivity.
Qed.

(** X15: whatever the builds and the driver of the build do, the
    operations of [packageInDistributableFormat] build no target twice
    and nothing that is not a target, and every build an await saw finish
    was started.  When the token is never set and no build fails, every
    target is built exactly once; if some target does not support
    concurrency, every build has also finished when the added function
    completes, and if all do, none is awaited here. *)
Theorem packageInDistributableFormat_every_target_once (targets : list Target.t)
    (builds : Model.Builds) :
  let log := Model.runTaskOps builds (packageInDistributableFormat targets) in
  Model.startedTargets log ⊆+ targets
  /\ Model.finishedTargets log ⊆+ Model.startedTargets log
  /\ (Model.cancelledBefore builds = false ->
      Model.cancelledMeanwhile builds = false ->
      (forall target, In target targets -> Model.fails builds target = false) ->
      Model.startedTargets log ≡ₚ targets
      /\ Model.finishedTargets log
         ≡ₚ (if forallb Target.isAsyncSupported targets then [] else targets)).
Proof.
  intros log. unfold log. clear log.
  rewrite runTaskOps_packageInDistributableFormat.
  set (async := List.filter (fun t => Target.isAsyncSupported t) targets).
  set (sync := List.filter (fun t => negb (Target.isAsyncSupported t)) targets).
  pose proof (async_sync_all targets) as Hall. fold async sync in Hall.
  destruct (forallb Target.isAsyncSupported targets).
  { rewrite startedTargets_started, finishedTargets_started.
    repeat split; try reflexivity. apply submseteq_nil_l. }
  split; [|split].
  - destruct (Model.cancelledBefore builds); [apply submseteq_nil_l|].
    rewrite startedTargets_app, startedTargets_started, <- Hall.
    apply submseteq_app; [reflexivity|].
    destruct (Model.cancelledMeanwhile builds);
      [apply startedTargets_in_turn|].
    destruct (List.find _ async); [apply submseteq_nil_l|].
    rewrite startedTargets_app, startedTargets_finished.
    apply startedTargets_in_turn.
  - destruct (Model.cancelledBefore builds); [reflexivity|].
    rewrite startedTargets_app, finishedTargets_app,
      startedTargets_started, finishedTargets_started. simpl.
    destruct (Model.cancelledMeanwhile builds).
    { apply submseteq_inserts_l, finishedTargets_in_turn. }
    destruct (List.find _ async); [apply submseteq_nil_l|].
    rewrite startedTargets_app, finishedTargets_app,
      startedTargets_finished, finishedTargets_finished. simpl.
    apply submseteq_app; [reflexivity | apply finishedTargets_in_turn].
  - intros -> -> Hsucceed.
    rewrite find_none_succeed
      by (intros t Ht; apply Hsucceed;
          apply (proj1 (List.filter_In _ _ _) Ht)).
    rewrite builtInTurn_all_succeed
      by (intros t Ht; apply Hsucceed;
          apply (proj1 (List.filter_In _ _ _) Ht)).
    rewrite !startedTargets_app, !finishedTargets_app.
    rewrite startedTargets_started, startedTargets_finished,
      finishedTargets_started, finishedTargets_finished,
      startedTargets_sequence, finishedTargets_sequence.
    simpl. split; exact Hall.
Qed.

Section AsarWarning.

Context {path : PathApi} {collaborators : Collaborators}.

(** X16: [computeAsarOptions] makes no call but its warning, and it warns
    exactly when it returns [null] for an Electron-based framework with no
    file [app.asar] in the application directory: disabling asar is silent
    for an application that is already an archive, and a framework that
    is not Electron-based is never warned. *)
Theorem computeAsarOptions_warning (env : Env) (p : PlatformPackager)
    (options : PlatformSpecificBuildOptions.t) (w : World) :
  let run := computeAsarOptions env p options in
  let isArchive :=
    match statOrNull env (path_join [Packager.appDir (info p); "app.asar"]) with
    | Some stat => isFile stat
    | None => false
    end in
  eventsOf run w
  = (if match fst (run w) with Ok None => true | _ => false end
        && isElectronBased p && negb isArchive
     then [EvLogWarn "asar using is disabled"] else []).
Proof.
  intros run isArchive. unfold run, isArchive. clear run isArchive.
  apply (run_wp _ _ (fun r events =>
    events
    = (if match r with Ok None => true | _ => false end && isElectronBased p
          && negb match statOrNull env
                          (path_join [Packager.appDir (info p); "app.asar"]) with
                  | Some stat => isFile stat
                  | None => false
                  end
       then [EvLogWarn "asar using is disabled"] else []))).
  unfold computeAsarOptions.
  destruct (isElectronBased p); cbn [negb].
  2: { apply wp_ret. exists []. split; [symmetry; apply app_nil_r|].
       rewrite andb_false_r. reflexivity. }
  repeat first
    [ wp_step
    | match goal with
      | |- wp (throw _) _ _ => unfold wp, throw; cbn [fst snd]
      | |- wp (for_of _ _) _ _ => cbn [for_of]
      end ].
  all: trace_leaf.
  all: try reflexivity.
  all: rewrite ?Heqb; reflexivity.
Qed.

End AsarWarning.

Section CopyStrategies.

Context {path : PathApi} {collaborators : Collaborators}.

(** X17: [copyAppFiles] packs an archive exactly when it is handed asar
    options and the application is not a prepackaged archive.  The
    transformer for extra files takes part only in the plain copy of an
    application that is not prepackaged: an archive is packed, and a
    prepackaged archive copied, with the transformer of [createTransformer]
    alone.  For a prepackaged archive the main matchers and the exclusions
    are not used: one matcher from the application directory to the
    resources directory is, no transformer is handed to [computeFileSets],
    and the node modules are not collected; they are collected otherwise
    unless they are handled externally. *)
Theorem copyAppFiles_strategy (p : PlatformPackager) (asarOptions : option JsObject)
    (resourcePath defaultDestination : string) (packContext : AfterPackContext)
    (options : PlatformSpecificBuildOptions.t) (excludePatterns : list Minimatch)
    (macroExpander : string -> Result string) :
  let task :=
    copyAppFiles p asarOptions resourcePath defaultDestination packContext options
      excludePatterns macroExpander in
  let prepacked := Packager.isPrepackedAppAsar (info p) in
  let archived := bool_decide (asarOptions <> None) in
  let isElectronCompile := archived && Packager.isElectronCompileUsed (info p) in
  let transformer :=
    createTransformer (Packager.appDir (info p)) (config p)
      (if isElectronCompile
       then ElectronCompileMetadata (Packager.metadata_main (info p))
              ELECTRON_COMPILE_SHIM_FILENAME (Configuration.extraMetadata (config p))
       else PlainMetadata (Configuration.extraMetadata (config p)))
      (Framework.createTransformer (Packager.framework (info p))) in
  isPackAsar task = negb prepacked && archived
  /\ taskTransformer task
     = (if prepacked || archived then transformer
        else combinedTransformer (createTransformerForExtraFiles p packContext)
               transformer)
  /\ (prepacked = true ->
      plan_matchers (taskFileSets task)
      = [new_FileMatcher (Packager.appDir (info p)) resourcePath]
      /\ plan_transformer (taskFileSets task) = None)
  /\ bool_decide (plan_nodeModules (taskFileSets task) <> None)
     = negb prepacked && negb (Packager.areNodeModulesHandledExternally (info p)).
Proof.
  intros task prepacked archived isElectronCompile transformer.
  unfold task, prepacked, archived, isElectronCompile, transformer, copyAppFiles.
  destruct (Packager.isPrepackedAppAsar (info p));
    destruct asarOptions as [asarOptions|];
    destruct (Packager.areNodeModulesHandledExternally (info p));
    cbn; repeat split; reflexivity || discriminate.
Qed.

End CopyStrategies.

(** ** Icons *)

Lemma pushInputs_flat_map (args sources : list string) :
  pushInputs args sources
  = args ++ flat_map (fun source => ["--input"; source]) sources.
Proof.
  revert args.
  induction sources as [|source rest IH]; intros args; simpl.
  - rewrite app_nil_r. reflexivity.
  - rewrite IH, <- app_assoc. reflexivity.
Qed.

Section Icons.

Context {path : PathApi} {collaborators : Collaborators} {util : BuilderUtil}.

(** X18: [getOrConvertIcon] consults the conversion tool once, with these
    arguments, and the answer decides the outcome.  The candidates it names
    are, in this order: the configured icon, which is the platform-specific
    one unless that is null or empty and the top-level one otherwise, left
    out when null; [icon.<format>], which is a second [icon.png] for the
    format [set]; [icon.png]; [icons]; and, for [ico] only, [icon.icns]
    last.  When the tool throws, so does [getOrConvertIcon]; an answer that
    does not parse or that carries an error is an error, whatever icons it
    lists; the file of the first icon listed is returned, without a
    warning; and with no icon listed the default icon of the framework is
    returned when it has a function for it, and [null] with a warning
    otherwise.  Two tools that answer this one call alike give the same
    outcome. *)
Theorem getOrConvertIcon_single_call (tool : IconTool) (x : Settings)
    (format : IconFormat) :
  let configured :=
    if nonEmpty (CommonOptions.icon (platformOptions x))
    then CommonOptions.icon (platformOptions x)
    else CommonOptions.icon (configOptions x) in
  let sources :=
    match configured with Val icon => [icon] | _ => [] end
    ++ [match format with
        | icns => "icon.icns" | ico => "icon.ico" | set => "icon.png"
        end;
        "icon.png"; "icons"]
    ++ match format with ico => ["icon.icns"] | _ => [] end in
  let withoutIcon :=
    match getDefaultIcon x with
    | Some getDefaultIcon => Ok (getDefaultIcon (platform (packager x)), None)
    | None =>
        Ok (Null,
            Some (if isDefaultAppIconProvided x
                  then "default "
                       +:+ capitalizeFirstLetter
                             (Framework.name (Packager.framework (info (packager x))))
                       +:+ " icon is used"
                  else "application doesn't have an icon"))
    end in
  getOrConvertIcon tool x format
  = match executeAppBuilder tool (iconArguments x format sources) with
    | Err e => Err e
    | Ok rawResult =>
        match parseResult tool rawResult with
        | None => Err (Thrown "Cannot parse result")
        | Some result =>
            match error result with
            | Val errorMessage => Err (Thrown errorMessage)
            | _ =>
                match icons result with
                | Val (first :: _) => Ok (Val (file first), None)
                | _ => withoutIcon
                end
            end
        end
    end
  /\ (forall tool',
        executeAppBuilder tool (iconArguments x format sources)
        = executeAppBuilder tool' (iconArguments x format sources) ->
        (forall rawResult, parseResult tool rawResult = parseResult tool' rawResult) ->
        getOrConvertIcon tool x format = getOrConvertIcon tool' x format).
Proof.
  intros configured sources withoutIcon.
  assert (Hnames :
    forall tool, getOrConvertIcon tool x format
    = match resolveIcon tool x sources format with
      | Err e => Err e
      | Ok [] => withoutIcon
      | Ok (first :: _) => Ok (Val (file first), None)
      end).
  { intros tool0. unfold getOrConvertIcon, sources, configured, nonEmpty.
    destruct (CommonOptions.icon (platformOptions x)) as [| |[|c icon]];
      destruct (CommonOptions.icon (configOptions x));
      destruct format; reflexivity. }
  assert (Hcalled :
    forall tool, resolveIcon tool x sources format
    = match executeAppBuilder tool (iconArguments x format sources) with
      | Err e => Err e
      | Ok rawResult =>
          match parseResult tool rawResult with
          | None => Err (Thrown "Cannot parse result")
          | Some result =>
              match error result with
              | Val errorMessage => Err (Thrown errorMessage)
              | _ => Ok (match icons result with Val icons => icons | _ => [] end)
              end
          end
      end).
  { intros tool0. unfold resolveIcon. rewrite pushInputs_flat_map. reflexivity. }
  split.
  - rewrite Hnames, Hcalled.
    destruct (executeAppBuilder tool _) as [rawResult|?]; [|reflexivity].
    destruct (parseResult tool rawResult) as [result|]; [|reflexivity].
    destruct (error result); try reflexivity;
      destruct (icons result) as [| |[|first rest]]; reflexivity.
  - intros tool' Hanswer Hparse.
    rewrite !Hnames, !Hcalled, Hanswer.
    destruct (executeAppBuilder tool' _) as [rawResult|?]; [|reflexivity].
    rewrite Hparse. reflexivity.
Qed.

End Icons.

(** A tool that answers the one call made for the sample application and
    the format [ico], with four candidates and so seventeen arguments, and
    throws on any other call, gives the same icon as one that answers every
    call. *)
Example getOrConvertIcon_strict_tool :
  let strict :=
    {| executeAppBuilder := fun args =>
         if (length args =? 17)%nat then Ok "one icon" else Err (Thrown "unexpected");
       parseResult := parseResult Sample.oneIcon |} in
  @getOrConvertIcon (Posix.api "/project") Model.builderUtil strict
    Sample.settings ico
  = Ok (Val "/project/dist/.icon-ico/icon.ico", None)
  /\ @getOrConvertIcon (Posix.api "/project") Model.builderUtil Sample.oneIcon
       Sample.settings ico
     = Ok (Val "/project/dist/.icon-ico/icon.ico", None).
Proof. split; vm_compute; reflexivity. Qed.

Section PipelineErrors.

Context {path : PathApi} {collaborators : Collaborators}.


End PipelineErrors.

(** Two runs of the sample build that end with an error: nothing was
    written to the output directory, and the sanity check, the last call
    made, refuses it; the extra-file matchers throw, and the run ends after
    the stage was prepared. *)
Example doPack_error_examples :
  let unknownMacro := Thrown "unknown macro" in
  let throwing := fun s =>
    match s with SExtraFileMatchers => Some unknownMacro | _ => None end in
  let refused :=
    Sample.run (Build_Env (Model.statOrNull Sample.packedFiles)
                  (Model.checkFileInArchive Sample.packedArchives) throwing
                  Sample.never)
      Sample.linux in
  let unwritten := Sample.run (Model.env [] [] Sample.never) Sample.linux in
  fst (unwritten Sample.start) = Err (OutputDirMissing Sample.appOutDir)
  /\ last (eventsOf unwritten Sample.start)
     = Some (EvSanityCheck Sample.appOutDir true)
  /\ fst (refused Sample.start) = Err unknownMacro
  /\ map eventLabel (eventsOf refused Sample.start)
     = ["log.info"; "prepareApplicationStageDirectory"].
Proof. repeat split; vm_compute; reflexivity. Qed.
